(** * wowapi_py: the authenticated-request dispatch core

    A shallow embedding of

    - [method_cache] (src/wowapi_py/api.py and src/wow_game_data.py),
    - [Api] (src/wowapi_py/api.py), the blocking client,
    - [AsyncApi] (src/wowapi_py/async_api.py), the cooperative client,
    - the exception classes of src/exceptions.py,

    together with the properties of the dispatch core: token lifecycle,
    the 401 refresh-and-retry step, error classification, region
    validation and call memoization.

    Conventions of the embedding.

    - Python objects that the code only passes around are values of
      [pyobj]; dictionaries that the code looks into ([self.token], the
      memoization table) are [gmap]s keyed by strings.
    - The builtin [str] is a parameter ([py_str]) of the clients and of
      the memoizer; where a property depends on how Python prints a value
      (two keys that differ), it is stated for [Scenario.str], Python's
      printer on the values of [pyobj].
    - The network, the HTTP libraries and the clock are an environment
      [env] of oracles; every call the code makes to them is recorded in a
      log of [event]s, in program order, so that "how many sends" and
      "how many token requests" are functions of the log.
    - [time()] is a number of seconds in [Z].
    - Of the HTTP libraries the embedding keeps what the code relies on:
      a request either fails in the transport or gives a response with a
      status and a body; [raise_for_status] raises for the statuses 400
      to 599 in requests and from 400 on in aiohttp; on a body that is
      not a document, [json()] of aiohttp raises [ValueError] and [json()]
      of requests (2.27 and later) raises its own [JSONDecodeError], which
      is a [RequestException] as well as a [ValueError]; [fetch_token] of
      requests_oauthlib returns a document only if it has an
      [access_token], and raises an [OAuth2Error] otherwise.  The session
      of the cooperative client is open.
    - A Python function is a state transformer that either returns or
      raises, [M St A]; what it wrote before raising stays written. *)

From Stdlib Require Import ZArith List Lia Sorted Ascii.
From Stdlib Require OrderedTypeEx.
From stdpp Require Import base option gmap strings pretty list fin_maps.

Local Open Scope string_scope.
Local Open Scope Z_scope.

(** ** Python values *)

#[warnings="-register-all"]
Inductive pyobj :=
| PStr (s : string)
| PNum (z : Z)
| PTuple (xs : list pyobj)
| PList (xs : list pyobj)
| PDict (items : list (string * pyobj)).

(** ** src/exceptions.py, and the library exceptions the code handles

    [BlizzardApiException] is the base class; the six classes after it
    are its subclasses.  The remaining constructors are exceptions of
    requests, oauthlib, aiohttp and of the interpreter itself, which the
    dispatchers catch or let through. *)

#[warnings="-register-all"]
Inductive exn :=
| BlizzardApiException (status : Z)
| AuthenticationError (cause : option exn)
| RateLimitError
| ResourceNotFoundError
| InvalidRegionError (region : string)
| ApiConnectionError
| InvalidResponseError
| HTTPError (status : Z)            (* requests.exceptions.HTTPError *)
| RequestException                  (* requests: any other transport failure *)
| JSONDecodeError                   (* requests: a RequestException and a ValueError *)
| OAuth2Error (description : string) (* oauthlib *)
| ClientResponseError (status : Z)  (* aiohttp.ClientResponseError *)
| ClientError                       (* aiohttp: any other transport failure *)
| ValueError
| KeyError (key : string)
| TypeError.

(** [isinstance(e, RequestException)]: the class and its subclasses. *)
Definition is_RequestException (e : exn) : bool :=
  match e with
  | HTTPError _ | RequestException | JSONDecodeError => true
  | _ => false
  end.

(** ** Functions that return or raise, over a state *)

Inductive outcome (A : Type) :=
| Return (a : A)
| Raise (e : exn).
Arguments Return {A} a.
Arguments Raise {A} e.

Definition M (St A : Type) : Type := St -> outcome A * St.

Definition ret {St A} (a : A) : M St A := fun s => (Return a, s).

Definition raise {St A} (e : exn) : M St A := fun s => (Raise e, s).

Definition bind {St A B} (m : M St A) (k : A -> M St B) : M St B :=
  fun s =>
    match m s with
    | (Return a, s') => k a s'
    | (Raise e, s') => (Raise e, s')
    end.

(** [try: m except e: h e]; a handler that does not know [e] re-raises it. *)
Definition try {St A} (m : M St A) (h : exn -> M St A) : M St A :=
  fun s =>
    match m s with
    | (Return a, s') => (Return a, s')
    | (Raise e, s') => h e s'
    end.

(** Run a function of the inner state inside a larger state. *)
Definition lift {C St A} (m : M St A) : M (C * St) A :=
  fun '(c, s) => let '(r, s') := m s in (r, (c, s')).

Declare Scope py_scope.
Delimit Scope py_scope with py.
Notation "'let*' x ':=' m 'in' k" := (bind m (fun x => k))
  (at level 10, x name, m at level 200, k at level 200) : py_scope.
Notation "m ;; k" := (bind m (fun _ => k))
  (at level 100, k at level 200, right associativity) : py_scope.
Local Open Scope py_scope.

(** ** The Call Memoizer: [method_cache]

    Both definitions create one dictionary [cache] when the decorator is
    applied, that is once per decorated function, and close over it.  The
    key is built from the arguments after [self].  They differ in the key
    only: api.py sorts the keyword arguments, wow_game_data.py prints the
    dictionary in insertion order. *)

Section MethodCache.

(** The builtin [str]. *)
Variable py_str : pyobj -> string.

(** [sorted(kwargs.items())]: the items are [(name, value)] tuples with
    pairwise different names, so the order is the one of the names. *)
Fixpoint insert_item (it : string * pyobj) (l : list (string * pyobj))
  : list (string * pyobj) :=
  match l with
  | [] => [it]
  | it' :: l' =>
      if String.leb (fst it) (fst it') then it :: it' :: l'
      else it' :: insert_item it l'
  end.

Definition sorted_items (kwargs : list (string * pyobj)) : list (string * pyobj) :=
  foldr insert_item [] kwargs.

Definition item_tuple (it : string * pyobj) : pyobj :=
  PTuple [PStr (fst it); snd it].

Inductive decorator := ApiPy | WowGameDataPy.

(** api.py:            [key = str(args) + str(sorted(kwargs.items()))]
    wow_game_data.py:  [key = str(args) + str(kwargs)] *)
Definition cache_key (d : decorator) (args : list pyobj)
    (kwargs : list (string * pyobj)) : string :=
  match d with
  | ApiPy => py_str (PTuple args) +:+ py_str (PList (item_tuple <$> sorted_items kwargs))
  | WowGameDataPy => py_str (PTuple args) +:+ py_str (PDict kwargs)
  end.

(** [wrapper(self, *args, **kwargs)].  The instance and everything else
    [func] can reach is the state [St]; the table is the first component
    of the wrapper's state. *)
Definition method_cache {St V : Type} (d : decorator)
    (func : list pyobj -> list (string * pyobj) -> M St V)
    (args : list pyobj) (kwargs : list (string * pyobj))
  : M (gmap string V * St) V :=
  fun '(cache, s) =>
    let key := cache_key d args kwargs in
    match cache !! key with
    | None =>
        match func args kwargs s with
        | (Return v, s') => (Return v, (<[key := v]> cache, s'))
        | (Raise e, s') => (Raise e, (cache, s'))
        end
    | Some v => (Return v, (cache, s))
    end.

(** Counting the executions of the underlying operation. *)
Definition counted {St V : Type}
    (func : list pyobj -> list (string * pyobj) -> M St V)
    (args : list pyobj) (kwargs : list (string * pyobj)) : M (nat * St) V :=
  fun '(n, s) => let '(r, s') := func args kwargs s in (r, (S n, s')).

End MethodCache.

(** ** The world outside the client *)

(** What the client does that can be observed: the two kinds of network
    request, and the two ways of writing the token. *)
Inductive event :=
| TokenRequest (url client_id client_secret : string)
| ResourceRequest (method url : string) (kwargs : list (string * pyobj))
    (authorization : string)
| AssignToken (t : gmap string pyobj)       (* self.token = t *)
| SetTokenItem (key : string) (v : pyobj).   (* self.token[key] = v *)

Definition is_token_request (e : event) : bool :=
  match e with TokenRequest _ _ _ => true | _ => false end.

Definition is_resource_request (e : event) : bool :=
  match e with ResourceRequest _ _ _ _ => true | _ => false end.

Definition is_network (e : event) : bool :=
  is_token_request e || is_resource_request e.

Definition is_item_write (e : event) : bool :=
  match e with SetTokenItem _ _ => true | _ => false end.

Definition token_requests (l : list event) : nat :=
  length (List.filter is_token_request l).

Definition sends (l : list event) : nat :=
  length (List.filter is_resource_request l).

(** [OAuth2Session.fetch_token(...)] as the blocking client sees it. *)
Inductive fetch_result :=
| Fetched (token : gmap string pyobj)
| FetchRejected (description : string)   (* raises an OAuth2Error *)
| FetchFailed.                           (* raises a RequestException *)

(** An HTTP exchange as both clients see it: no response at all, or a
    response with a status and a body that decodes to a document or
    does not. *)
Inductive http_result :=
| NoResponse
| Response (status : Z) (json : option (gmap string pyobj)).

(** The n-th token request, the n-th resource request and the n-th reading
    of the clock get the n-th answer. *)
Record env := {
  fetch_token : nat -> fetch_result;
  post_token : nat -> http_result;
  resource : nat -> http_result;
  time : nat -> Z
}.

Record world := { log : list event; ticks : nat }.

(** The fields of the two dataclasses that are not constants; [session]
    is the environment. *)
Record client := {
  client_id : string;
  client_secret : string;
  token : gmap string pyobj
}.

Record st := { self : client; net : world }.

(** The three ways in which a call changes the state. *)
Definition record (es : list event) (s : st) : st :=
  {| self := self s;
     net := {| log := log (net s) ++ es; ticks := ticks (net s) |} |}.

Definition tick (s : st) : st :=
  {| self := self s;
     net := {| log := log (net s); ticks := S (ticks (net s)) |} |}.

Definition install (t : gmap string pyobj) (s : st) : st :=
  {| self := {| client_id := client_id (self s);
                client_secret := client_secret (self s);
                token := t |};
     net := net s |}.

Definition emit (e : event) : M st unit :=
  fun s => (Return tt, record [e] s).

(** [time()] *)
Definition py_time (E : env) : M st Z :=
  fun s => (Return (time E (ticks (net s))), tick s).

Definition get_token : M st (gmap string pyobj) :=
  fun s => (Return (token (self s)), s).

Definition write_token (t : gmap string pyobj) : M st unit :=
  fun s => (Return tt, install t s).

(** [self.token = t] *)
Definition assign_token (t : gmap string pyobj) : M st unit :=
  write_token t ;; emit (AssignToken t).

(** [self.token[key] = v] *)
Definition set_token_item (key : string) (v : pyobj) : M st unit :=
  let* t := get_token in
  write_token (<[key := v]> t) ;; emit (SetTokenItem key v).

(** [d[key]] *)
Definition getitem {St} (d : gmap string pyobj) (key : string) : M St pyobj :=
  match d !! key with
  | Some v => ret v
  | None => raise (KeyError key)
  end.

(** [region not in ["us", "eu", "tw", "kr", "cn"]] *)
Definition regions : list string := ["us"; "eu"; "tw"; "kr"; "cn"].

Definition valid_region (region : string) : bool :=
  bool_decide (region ∈ regions).

(** [_format_url], the same in both classes. *)
Definition _format_url (resource region : string) : string :=
  if String.eqb region "cn"
  then "https://gateway.battlenet.com.cn" +:+ resource
  else "https://" +:+ region +:+ ".api.blizzard.com" +:+ resource.

(** [session.request(method, url, **kwargs)] with the header that the
    caller has just put into [kwargs]. *)
Definition session_request (E : env) (method url : string)
    (kwargs : list (string * pyobj)) (authorization : string) : M st http_result :=
  fun s =>
    let r := resource E (sends (log (net s))) in
    let '(_, s') := emit (ResourceRequest method url kwargs authorization) s in
    (Return r, s').

(** [await response.json()] of aiohttp, on a body sent as JSON:
    [json.loads] raises a [ValueError] when the body is not a document. *)
Definition json_of {St} (body : option (gmap string pyobj)) : M St (gmap string pyobj) :=
  match body with
  | Some d => ret d
  | None => raise ValueError
  end.

(** [not d] for a dictionary *)
Definition falsy (d : gmap string pyobj) : bool := Nat.eqb (size d) 0.

(** [x == "cn"] *)
Definition is_cn (x : pyobj) : bool :=
  match x with PStr s => String.eqb s "cn" | _ => false end.

(** ** src/wowapi_py/api.py: the blocking client *)

Module Api.
Section Api.

Variable py_str : pyobj -> string.
Variable E : env.

Definition token_url : string := "https://oauth.battle.net/token".
Definition token_url_cn : string := "https://www.battlenet.com.cn/oauth/token".
Definition oauth_url : string := "https://oauth.battle.net/authorize".
Definition oauth_url_cn : string := "https://www.battlenet.com.cn/oauth/authorize".

(** [self.session.fetch_token(token_url=..., ...)] with the credentials
    of [self].  The library validates the document it has received before
    it returns it: one without [access_token] is a [MissingTokenError],
    which is an [OAuth2Error]. *)
Definition missing_token : string := "Missing access token parameter.".

Definition session_fetch_token (url : string) : M st (gmap string pyobj) :=
  fun s =>
    let r := fetch_token E (token_requests (log (net s))) in
    let '(_, s') :=
      emit (TokenRequest url (client_id (self s)) (client_secret (self s))) s in
    match r with
    | Fetched t =>
        match t !! "access_token" with
        | Some _ => (Return t, s')
        | None => (Raise (OAuth2Error missing_token), s')
        end
    | FetchRejected d => (Raise (OAuth2Error d), s')
    | FetchFailed => (Raise RequestException, s')
    end.

(** Binding the call's arguments to the one parameter [region]. *)
Definition bind_region {St} (args : list pyobj) (kwargs : list (string * pyobj))
  : M St pyobj :=
  match args, kwargs with
  | [r], [] => ret r
  | [], [(name, r)] => if String.eqb name "region" then ret r else raise TypeError
  | _, _ => raise TypeError
  end.

(** The function under the decorator. *)
Definition get_client_credentials_token_func
    (args : list pyobj) (kwargs : list (string * pyobj)) : M st (gmap string pyobj) :=
  let* region := bind_region args kwargs in
  let url := if is_cn region then token_url_cn else token_url in
  try (let* response := session_fetch_token url in
       assign_token response ;;
       get_token)
      (fun e =>
         match e with
         | OAuth2Error _ => raise (AuthenticationError (Some e))
         | _ => raise e
         end).

(** [@method_cache def get_client_credentials_token(self, region)] *)
Definition get_client_credentials_token
  : list pyobj -> list (string * pyobj) ->
    M (gmap string (gmap string pyobj) * st) (gmap string pyobj) :=
  method_cache py_str ApiPy get_client_credentials_token_func.

(** [response.raise_for_status()] of requests: an [HTTPError] for the
    client and server error statuses. *)
Definition raise_for_status {St} (status : Z) : M St unit :=
  if (400 <=? status) && (status <? 600) then raise (HTTPError status) else ret tt.

Definition session_request (method url : string)
    (kwargs : list (string * pyobj)) (authorization : string)
  : M st (Z * option (gmap string pyobj)) :=
  let* r := session_request E method url kwargs authorization in
  match r with
  | NoResponse => raise RequestException
  | Response status body => ret (status, body)
  end.

(** [f"Bearer {self.token['access_token']}"] *)
Definition bearer : M st string :=
  let* t := get_token in
  let* a := getitem t "access_token" in
  ret ("Bearer " +:+ py_str a).

(** [not self.token or self.token.get("expires_at", 0) <= time() + 60] *)
Definition token_missing_or_expiring : M st bool :=
  let* t := get_token in
  if falsy t then ret true
  else
    let* now := py_time E in
    match default (PNum 0) (t !! "expires_at") with
    | PNum expires_at => ret (expires_at <=? now + 60)
    | _ => raise TypeError
    end.

(** [response.json()] of requests: every decoding failure is raised as
    requests.exceptions.JSONDecodeError. *)
Definition response_json {St} (body : option (gmap string pyobj))
  : M St (gmap string pyobj) :=
  match body with
  | Some d => ret d
  | None => raise JSONDecodeError
  end.

(** Lines 165-167 and 175-177: send, check the status, decode. *)
Definition send (method url : string) (kwargs : list (string * pyobj))
    (authorization : string) : M st (gmap string pyobj) :=
  let* response := session_request method url kwargs authorization in
  raise_for_status (fst response) ;;
  response_json (snd response).

(** Lines 158-162: fetch a token if there is none or it is about to
    expire, then build the [Authorization] header. *)
Definition authenticate (region : string)
  : M (gmap string (gmap string pyobj) * st) string :=
  let* refresh := lift token_missing_or_expiring in
  (if refresh : bool
   then let* t := get_client_credentials_token [PStr region] [] in
        lift (assign_token t)
   else ret tt) ;;
  lift bearer.

(** Lines 170-177, inside the handler of [HTTPError]: what is raised
    here is not handled by the [except] clauses of the same [try]. *)
Definition retry (method url region : string) (kwargs : list (string * pyobj))
  : M (gmap string (gmap string pyobj) * st) (gmap string pyobj) :=
  let* t := get_client_credentials_token [PStr region] [] in
  lift (assign_token t) ;;
  let* authorization := lift bearer in
  lift (send method url kwargs authorization).

(** Lines 164-189: the [try] statement.  The clauses are tried in the
    order of the source: [except RequestException] comes before
    [except ValueError], so that it is the one that handles the
    [JSONDecodeError] of requests. *)
Definition dispatch (method url region : string)
    (kwargs : list (string * pyobj)) (authorization : string)
  : M (gmap string (gmap string pyobj) * st) (gmap string pyobj) :=
  try (lift (send method url kwargs authorization))
      (fun e =>
         match e with
         | HTTPError status =>
             if status =? 401 then retry method url region kwargs
             else if status =? 404 then raise ResourceNotFoundError
             else if status =? 429 then raise RateLimitError
             else raise (BlizzardApiException status)
         | RequestException | JSONDecodeError => raise ApiConnectionError
         | ValueError => raise InvalidResponseError
         | _ => raise e
         end).

Definition request (method resource region : string)
    (kwargs : list (string * pyobj))
  : M (gmap string (gmap string pyobj) * st) (gmap string pyobj) :=
  if negb (valid_region region) then raise (InvalidRegionError region)
  else
    let url := _format_url resource region in
    let* authorization := authenticate region in
    dispatch method url region kwargs authorization.

Definition get (resource region : string) (kwargs : list (string * pyobj)) :=
  request "GET" resource region kwargs.

(** [_refresh_token]: not decorated, and not called by [request]. *)
Definition _refresh_token (region : string) : M st unit :=
  let url := if String.eqb region "cn" then oauth_url_cn else oauth_url in
  try (let* t := session_fetch_token url in assign_token t)
      (fun e =>
         match e with
         | OAuth2Error _ => raise (AuthenticationError (Some e))
         | _ => raise e
         end).

End Api.
End Api.

(** ** src/wowapi_py/async_api.py: the cooperative client

    One call runs from start to end here; the interleaving of several
    calls is not part of the embedding. *)

Module AsyncApi.
Section AsyncApi.

Variable py_str : pyobj -> string.
Variable E : env.

Definition oauth_url (region : string) : string :=
  "https://" +:+ region +:+ ".battle.net/oauth/token".
Definition oauth_url_cn : string := "https://www.battlenet.com.cn/oauth/token".

(** [response.raise_for_status()] of aiohttp: a [ClientResponseError]
    for every status from 400 on. *)
Definition raise_for_status {St} (status : Z) : M St unit :=
  if 400 <=? status then raise (ClientResponseError status) else ret tt.

(** [self.session.post(token_url, data={...})] *)
Definition session_post (url : string) : M st (Z * option (gmap string pyobj)) :=
  fun s =>
    let r := post_token E (token_requests (log (net s))) in
    let '(_, s') :=
      emit (TokenRequest url (client_id (self s)) (client_secret (self s))) s in
    match r with
    | NoResponse => (Raise ClientError, s')
    | Response status body => (Return (status, body), s')
    end.

Definition session_request (method url : string)
    (kwargs : list (string * pyobj)) (authorization : string)
  : M st (Z * option (gmap string pyobj)) :=
  let* r := session_request E method url kwargs authorization in
  match r with
  | NoResponse => raise ClientError
  | Response status body => ret (status, body)
  end.

(** [time() + x] *)
Definition add_to_time {St} (now : Z) (x : pyobj) : M St pyobj :=
  match x with
  | PNum n => ret (PNum (now + n))
  | _ => raise TypeError
  end.

Definition _refresh_token (region : string) : M st unit :=
  let url := if String.eqb region "cn" then oauth_url_cn else oauth_url region in
  try (let* response := session_post url in
       raise_for_status (fst response) ;;
       let* t := json_of (snd response) in
       assign_token t ;;
       let* now := py_time E in
       let* t := get_token in
       let* expires_in := getitem t "expires_in" in
       let* expires_at := add_to_time now expires_in in
       set_token_item "expires_at" expires_at)
      (fun e =>
         match e with
         | ClientResponseError _ => raise (AuthenticationError (Some e))
         | _ => raise e
         end).

Definition bearer : M st string :=
  let* t := get_token in
  let* a := getitem t "access_token" in
  ret ("Bearer " +:+ py_str a).

(** [not self.token or self.token.get("expires_at", 0) <= current_time + 60] *)
Definition token_missing_or_expiring (current_time : Z) : M st bool :=
  let* t := get_token in
  if falsy t then ret true
  else
    match default (PNum 0) (t !! "expires_at") with
    | PNum expires_at => ret (expires_at <=? current_time + 60)
    | _ => raise TypeError
    end.

(** Lines 109-116: refresh if there is no token or it is about to
    expire, then build the [Authorization] header. *)
Definition authenticate (region : string) : M st string :=
  let* current_time := py_time E in
  let* refresh := token_missing_or_expiring current_time in
  (if refresh : bool then _refresh_token region else ret tt) ;;
  bearer.

(** Lines 121-127, inside the [try] block. *)
Definition retry (method url region : string) (kwargs : list (string * pyobj))
  : M st (gmap string pyobj) :=
  _refresh_token region ;;
  let* authorization := bearer in
  let* response := session_request method url kwargs authorization in
  raise_for_status (fst response) ;;
  json_of (snd response).

(** Lines 131-147: the [except] clauses. *)
Definition on_error {A} (e : exn) : M st A :=
  match e with
  | ClientResponseError status =>
      if status =? 401 then raise (AuthenticationError None)
      else if status =? 404 then raise ResourceNotFoundError
      else if status =? 429 then raise RateLimitError
      else raise (BlizzardApiException status)
  | ClientError => raise ApiConnectionError
  | ValueError => raise InvalidResponseError
  | _ => raise e
  end.

(** Lines 118-147: the [try] statement. *)
Definition dispatch (method url region : string)
    (kwargs : list (string * pyobj)) (authorization : string)
  : M st (gmap string pyobj) :=
  try (let* response := session_request method url kwargs authorization in
       if fst response =? 401 then retry method url region kwargs
       else
         raise_for_status (fst response) ;;
         json_of (snd response))
      on_error.

Definition request (method resource region : string)
    (kwargs : list (string * pyobj)) : M st (gmap string pyobj) :=
  if negb (valid_region region) then raise (InvalidRegionError region)
  else
    let* authorization := authenticate region in
    let url := _format_url resource region in
    dispatch method url region kwargs authorization.

Definition get (resource region : string) (kwargs : list (string * pyobj)) :=
  request "GET" resource region kwargs.

End AsyncApi.
End AsyncApi.

(** ** src/wow_game_data.py: the query builder and the data client *)

(** [str(x)] where the code formats a value of which it may know that it
    is a string: a string is printed as itself, everything else by the
    builtin. *)
Definition py_format (py_str : pyobj -> string) (x : pyobj) : string :=
  match x with
  | PStr s => s
  | _ => py_str x
  end.

(** [bool(x)] *)
Definition truthy (x : pyobj) : bool :=
  match x with
  | PStr s => negb (String.eqb s "")
  | PNum z => negb (z =? 0)
  | PTuple xs | PList xs => match xs with [] => false | _ => true end
  | PDict items => match items with [] => false | _ => true end
  end.

(** [d[key] = v] on a dictionary in insertion order: a key that is there
    keeps its place. *)
Fixpoint setitem (key : string) (v : pyobj) (d : list (string * pyobj))
  : list (string * pyobj) :=
  match d with
  | [] => [(key, v)]
  | it :: d' =>
      if String.eqb (fst it) key then (key, v) :: d'
      else it :: setitem key v d'
  end.

(** [d.get(key)] *)
Fixpoint getitem_opt (key : string) (d : list (string * pyobj)) : option pyobj :=
  match d with
  | [] => None
  | it :: d' => if String.eqb (fst it) key then Some (snd it) else getitem_opt key d'
  end.

Module SearchQuery.
Section SearchQuery.

Variable py_str : pyobj -> string.

(** [urllib.parse.quote_plus] *)
Variable quote_plus : string -> string.

(** [self.params = {}] *)
Definition init : list (string * pyobj) := [].

Definition add_field (field : string) (value : pyobj) (params : list (string * pyobj))
  : list (string * pyobj) :=
  setitem field value params.

(** ["||".join(map(str, values))] *)
Definition add_or (field : string) (values : list pyobj) (params : list (string * pyobj))
  : list (string * pyobj) :=
  setitem field (PStr (String.concat "||" (py_format py_str <$> values))) params.

Definition add_not (field : string) (value : pyobj) (params : list (string * pyobj))
  : list (string * pyobj) :=
  setitem (field +:+ "!") value params.

(** [x or ''] for an optional [x] *)
Definition or_empty (x : option pyobj) : pyobj :=
  match x with
  | Some v => if truthy v then v else PStr ""
  | None => PStr ""
  end.

Definition add_range (field : string) (min_value max_value : option pyobj)
    (inclusive : bool) (params : list (string * pyobj)) : list (string * pyobj) :=
  let brackets := if inclusive then ("[", "]") else ("(", ")") in
  let range_value :=
    fst brackets +:+ py_format py_str (or_empty min_value) +:+ ","
    +:+ py_format py_str (or_empty max_value) +:+ snd brackets in
  setitem field (PStr range_value) params.

Definition set_page (page : pyobj) (params : list (string * pyobj))
  : list (string * pyobj) :=
  setitem "_page" page params.

Definition set_page_size (page_size : pyobj) (params : list (string * pyobj))
  : list (string * pyobj) :=
  setitem "_pageSize" page_size params.

(** [",".join(fields)] *)
Definition set_order (fields : list string) (params : list (string * pyobj))
  : list (string * pyobj) :=
  setitem "orderby" (PStr (String.concat "," fields)) params.

(** [urlencode(self.params)]: the pairs [quote_plus(str(k))=quote_plus(str(v))]
    in the order of the dictionary, joined by [&]. *)
Definition build (params : list (string * pyobj)) : string :=
  String.concat "&"
    ((fun it => quote_plus (fst it) +:+ "=" +:+ quote_plus (py_format py_str (snd it)))
       <$> params).

End SearchQuery.
End SearchQuery.

(** Binding the arguments of a call to the parameters [names] of a
    function that also takes [**kwargs]: too many positional arguments, a
    missing parameter, or a parameter given twice is a [TypeError] (here
    [None]); the keyword arguments that name no parameter are [kwargs]. *)
Definition has_key (key : string) (d : list (string * pyobj)) : bool :=
  match getitem_opt key d with Some _ => true | None => false end.

Definition remove_key (key : string) (d : list (string * pyobj)) : list (string * pyobj) :=
  List.filter (fun it => negb (String.eqb (fst it) key)) d.

Fixpoint bind_params (names : list string) (args : list pyobj)
    (kw : list (string * pyobj)) : option (list pyobj * list (string * pyobj)) :=
  match names with
  | [] =>
      match args with
      | [] => Some ([], kw)
      | _ :: _ => None
      end
  | name :: names' =>
      match args with
      | a :: args' =>
          if has_key name kw then None
          else
            match bind_params names' args' kw with
            | Some (vs, rest) => Some (a :: vs, rest)
            | None => None
            end
      | [] =>
          match getitem_opt name kw with
          | Some v =>
              match bind_params names' [] (remove_key name kw) with
              | Some (vs, rest) => Some (v :: vs, rest)
              | None => None
              end
          | None => None
          end
      end
  end.

Module WowGameDataApi.
Section WowGameDataApi.

Variable py_str : pyobj -> string.
Variable quote_plus : string -> string.
Variable E : env.

(** [self.api.get(resource, region, **kwargs)] on whatever the caller has
    passed for [resource] and [region]: only a string can be in the list
    of regions, and the URL template prints the resource. *)
Definition api_get (resource region : pyobj) (kwargs : list (string * pyobj))
  : M (gmap string (gmap string pyobj) * st) (gmap string pyobj) :=
  match region with
  | PStr r => Api.get py_str E (py_format py_str resource) r kwargs
  | _ => raise (InvalidRegionError (py_format py_str region))
  end.

(** The function under the decorator:
    [query_params = {"locale": locale, **kwargs}] and
    [self.api.get(resource, region, params=query_params)]. *)
Definition _get_data_func (args : list pyobj) (kwargs : list (string * pyobj))
  : M (gmap string (gmap string pyobj) * st) (gmap string pyobj) :=
  match bind_params ["resource"; "region"; "locale"] args kwargs with
  | Some ([resource; region; locale], rest) =>
      let query_params :=
        foldl (fun d it => setitem (fst it) (snd it) d) [("locale", locale)] rest in
      api_get resource region [("params", PDict query_params)]
  | _ => raise TypeError
  end.

(** [@method_cache def _get_data(self, resource, region, locale, **kwargs)];
    the state is the table of [_get_data], the table of
    [get_client_credentials_token], and the client [self.api]. *)
Definition _get_data
  : list pyobj -> list (string * pyobj) ->
    M (gmap string (gmap string pyobj) * (gmap string (gmap string pyobj) * st))
      (gmap string pyobj) :=
  method_cache py_str WowGameDataPy _get_data_func.

Definition get_achievement (region locale : string) (achievement_id : pyobj) :=
  _get_data
    [PStr ("/data/wow/achievement/" +:+ py_format py_str achievement_id);
     PStr region; PStr locale]
    [("namespace", PStr ("static-" +:+ region))].

Definition get_token_index (region locale : string) (is_classic : bool) :=
  _get_data
    [PStr "/data/wow/token/index"; PStr region; PStr locale]
    [("namespace",
      PStr (if is_classic then "dynamic-classic-" +:+ region else "dynamic-" +:+ region))].

(** [get_token_price]: [is_classic] is accepted and not passed on;
    [token_object.get("price")] is [None] when the key is missing, and
    [//] on it is a [TypeError]. *)
Definition get_token_price (region locale : string) (is_classic : bool)
  : M (gmap string (gmap string pyobj) * (gmap string (gmap string pyobj) * st))
      (gmap string pyobj) :=
  let* token_object := get_token_index region locale false in
  match token_object !! "price" with
  | Some (PNum token_price) =>
      ret {[ "gold" := PNum (token_price / 10000);
             "silver" := PNum (token_price mod 10000 / 100);
             "copper" := PNum (token_price mod 100) ]}
  | _ => raise TypeError
  end.

(** [search]: the query object of the caller is the first component of
    the state; it is written before the request is made. *)
Definition search (region locale document_type namespace_type : string)
  : M (list (string * pyobj)
       * (gmap string (gmap string pyobj) * (gmap string (gmap string pyobj) * st)))
      (gmap string pyobj) :=
  fun '(query, s) =>
    let resource := "/data/wow/search/" +:+ document_type in
    let namespace := namespace_type +:+ "-" +:+ region in
    let query := SearchQuery.add_field "namespace" (PStr namespace) query in
    let query := SearchQuery.add_field "locale" (PStr locale) query in
    let query_string := SearchQuery.build py_str quote_plus query in
    let full_url := resource +:+ "?" +:+ query_string in
    lift (_get_data [PStr full_url; PStr region; PStr locale] []) (query, s).

End WowGameDataApi.
End WowGameDataApi.

(** ** Concrete scenarios

    Python's printer on the values of [pyobj], and a few environments on
    which the definitions above are run.  A character of a [string] stands
    for the code point of its number, so that the strings here are the
    Python strings of code points below 256. *)

Module Scenario.

Definition join_comma (l : list string) : string :=
  match l with
  | [] => ""
  | [x] => x
  | x :: xs => foldl (fun acc y => acc +:+ ", " +:+ y) x xs
  end.

Definition backslash : Ascii.ascii := "092"%char.
Definition double_quote : Ascii.ascii := "034"%char.

Definition hex_digit (n : N) : Ascii.ascii :=
  default "0"%char (String.get (N.to_nat n) "0123456789abcdef").

(** [ch.isprintable()] below 256: the ASCII characters from the space to
    the tilde, and the Latin-1 characters other than the controls, the
    no-break space and the soft hyphen. *)
Definition printable (c : Ascii.ascii) : bool :=
  let n := Ascii.N_of_ascii c in
  ((32 <=? n) && (n <? 127) || (161 <=? n) && negb (n =? 173))%N.

(** One character of a string inside the quotes [quote]. *)
Definition repr_char (quote c : Ascii.ascii) : string :=
  if Ascii.eqb c quote || Ascii.eqb c backslash then String backslash (String c "")
  else if Ascii.eqb c "009" then String backslash "t"
  else if Ascii.eqb c "010" then String backslash "n"
  else if Ascii.eqb c "013" then String backslash "r"
  else if printable c then String c ""
  else
    String backslash
      (String "x" (String (hex_digit (Ascii.N_of_ascii c / 16))
                     (String (hex_digit (Ascii.N_of_ascii c mod 16)) ""))).

Fixpoint repr_chars (quote : Ascii.ascii) (s : string) : string :=
  match s with
  | EmptyString => ""
  | String c s' => repr_char quote c +:+ repr_chars quote s'
  end.

Fixpoint has_char (c : Ascii.ascii) (s : string) : bool :=
  match s with
  | EmptyString => false
  | String c' s' => Ascii.eqb c' c || has_char c s'
  end.

(** [repr] of a string: single quotes, unless the string has a single
    quote and no double quote; the quote and the backslash are escaped. *)
Definition quote_of (s : string) : Ascii.ascii :=
  if has_char "'" s && negb (has_char double_quote s) then double_quote else "'"%char.

Definition repr_str (s : string) : string :=
  String (quote_of s) (repr_chars (quote_of s) s +:+ String (quote_of s) "").

Fixpoint repr (o : pyobj) : string :=
  match o with
  | PStr s => repr_str s
  | PNum z => pretty z
  | PTuple [x] => "(" +:+ repr x +:+ ",)"
  | PTuple xs => "(" +:+ join_comma (List.map repr xs) +:+ ")"
  | PList xs => "[" +:+ join_comma (List.map repr xs) +:+ "]"
  | PDict items =>
      "{" +:+ join_comma (List.map (fun it => repr_str (fst it) +:+ ": " +:+ repr (snd it)) items)
          +:+ "}"
  end.

Definition str (o : pyobj) : string :=
  match o with
  | PStr s => s
  | _ => repr o
  end.

(** A token document as the authorization server sends it. *)
Definition granted (access_token : string) (expires_in : Z) : gmap string pyobj :=
  {[ "access_token" := PStr access_token;
     "token_type" := PStr "bearer";
     "expires_in" := PNum expires_in ]}.

(** The same after oauthlib has stamped it at time [now]. *)
Definition stamped (access_token : string) (expires_in now : Z) : gmap string pyobj :=
  <["expires_at" := PNum (now + expires_in)]> (granted access_token expires_in).

Definition fresh (id secret : string) : st :=
  {| self := {| client_id := id; client_secret := secret; token := ∅ |};
     net := {| log := []; ticks := 0 |} |}.

(** The authorization server grants a token of one hour to every
    request, stamped by oauthlib at time [issued] in the blocking
    client; the resource server answers every request with [status] and
    [body]; the n-th reading of the clock gives [clock n]. *)
Definition server (status : Z) (body : option (gmap string pyobj))
    (issued : Z) (clock : nat -> Z) : env :=
  {| fetch_token := fun n => Fetched (stamped ("T" +:+ pretty n) 3600 issued);
     post_token := fun n => Response 200 (Some (granted ("T" +:+ pretty n) 3600));
     resource := fun _ => Response status body;
     time := clock |}.

(** Every resource request is answered with 401. *)
Definition unauthorized : env := server 401 None 0 (fun _ => 0).

(** Every resource request is answered with 300 (Multiple Choices, which
    neither HTTP library follows as a redirect) and a document. *)
Definition multiple_choices : env := server 300 (Some ∅) 0 (fun _ => 0).

(** Every resource request succeeds, and the clock stands at 3540. *)
Definition an_hour_later : env := server 200 (Some ∅) 0 (fun _ => 3540).

(** The authorization server rejects the client. *)
Definition rejecting : env :=
  {| fetch_token := fun _ => FetchRejected "invalid_client";
     post_token := fun _ => Response 401 None;
     resource := fun _ => Response 200 (Some ∅);
     time := fun _ => 0 |}.

(** The authorization server cannot be reached. *)
Definition unreachable : env :=
  {| fetch_token := fun _ => FetchFailed;
     post_token := fun _ => NoResponse;
     resource := fun _ => Response 200 (Some ∅);
     time := fun _ => 0 |}.

(** An operation that fails as many times as its state says, and then
    returns the number of its positional arguments. *)
Definition flaky (args : list pyobj) (kwargs : list (string * pyobj)) : M nat Z :=
  fun failures =>
    match failures with
    | O => (Return (Z.of_nat (length args)), O)
    | S k => (Raise ApiConnectionError, k)
    end.

(** The state in which a second client [b] finds the world after the
    run [r] of a first client. *)
Definition then_client {A C : Type} (r : outcome A * (C * st)) (b : st) : C * st :=
  (fst (snd r), {| self := self b; net := net (snd (snd r)) |}).

(** A client that holds the token granted at time 0. *)
Definition signed_in : st :=
  {| self := {| client_id := "id"; client_secret := "secret";
                token := stamped "T0" 3600 0 |};
     net := {| log := []; ticks := 0 |} |}.

(** The table of [get_client_credentials_token] and the state of the
    blocking client after its first call in [an_hour_later]. *)
Definition after_first_call : gmap string (gmap string pyobj) * st :=
  (<[cache_key str ApiPy [PStr "us"] [] := stamped "T0" 3600 0]> ∅,
   {| self := {| client_id := "id"; client_secret := "secret";
                 token := stamped "T0" 3600 0 |};
      net := {| log := [TokenRequest "https://oauth.battle.net/token" "id" "secret";
                        AssignToken (stamped "T0" 3600 0);
                        AssignToken (stamped "T0" 3600 0);
                        ResourceRequest "GET" "https://us.api.blizzard.com/data/x/1" []
                          "Bearer T0"];
                ticks := 0 |} |}).

End Scenario.

(** ** Further scenarios *)

Module Fixtures.

(** The authorization server grants a document without [expires_in]. *)
Definition no_expires_in : env :=
  {| fetch_token := fun _ => Fetched {[ "access_token" := PStr "T" ]};
     post_token := fun _ => Response 200 (Some {[ "access_token" := PStr "T" ]});
     resource := fun _ => Response 200 (Some ∅);
     time := fun _ => 0 |}.

(** The first token request is granted, the later ones find no server;
    every resource request is answered with 401. *)
Definition server_goes_away : env :=
  {| fetch_token := fun n =>
       match n with
       | O => Fetched (Scenario.stamped "T0" 3600 0)
       | _ => FetchFailed
       end;
     post_token := fun n =>
       match n with
       | O => Response 200 (Some (Scenario.granted "T0" 3600))
       | _ => NoResponse
       end;
     resource := fun _ => Response 401 None;
     time := fun _ => 0 |}.

(** Every token request is granted; the first resource request is
    answered with 401, the later ones with [status] and [body]. *)
Definition unauthorized_once (status : Z) (body : option (gmap string pyobj)) : env :=
  {| fetch_token := fun n => Fetched (Scenario.stamped ("T" +:+ pretty n) 3600 0);
     post_token := fun n => Response 200 (Some (Scenario.granted ("T" +:+ pretty n) 3600));
     resource := fun n =>
       match n with
       | O => Response 401 None
       | _ => Response status body
       end;
     time := fun _ => 0 |}.

(** The table of [_get_data] holds the token index of the retail
    namespace of "us", at a price of 2345678. *)
Definition index_stored
  : gmap string (gmap string pyobj) * (gmap string (gmap string pyobj) * st) :=
  (<[cache_key Scenario.str WowGameDataPy
       [PStr "/data/wow/token/index"; PStr "us"; PStr "en_US"]
       [("namespace", PStr "dynamic-us")] := {[ "price" := PNum 2345678 ]}]> ∅,
   (∅, Scenario.fresh "id" "secret")).

End Fixtures.

(** ** Vocabulary of the properties *)

(** The Error Classifier of the specification, for the statuses that end
    a call: 404, 429, and the generic case that carries the status. *)
Definition classify_status (status : Z) : exn :=
  if status =? 404 then ResourceNotFoundError
  else if status =? 429 then RateLimitError
  else BlizzardApiException status.

(** States that contain a log. *)
Class Logged (St : Type) := the_log : St -> list event.

#[export] Instance logged_st : Logged st := fun s => log (net s).

#[export] Instance logged_pair (C St : Type) `{Logged St} : Logged (C * St) :=
  fun p => the_log (snd p).

(** [m] only appends to the log, and every event it appends satisfies [P]. *)
Definition emits {St A : Type} `{Logged St} (P : event -> Prop) (m : M St A) : Prop :=
  forall s, exists new, the_log (snd (m s)) = (the_log s ++ new)%list /\ Forall P new.

Definition wholesale (e : event) : Prop := is_item_write e = false.

Definition stamps_expiry_only (e : event) : Prop :=
  match e with
  | SetTokenItem key _ => key = "expires_at"
  | _ => True
  end.

(** The token request of the blocking client in state [s]. *)
Definition token_request_of (region : string) (s : st) : event :=
  TokenRequest (if String.eqb region "cn" then Api.token_url_cn else Api.token_url)
    (client_id (self s)) (client_secret (self s)).

(** The token request of the cooperative client in state [s]. *)
Definition token_post_of (region : string) (s : st) : event :=
  TokenRequest
    (if String.eqb region "cn" then AsyncApi.oauth_url_cn else AsyncApi.oauth_url region)
    (client_id (self s)) (client_secret (self s)).

(** The state of the cooperative client after a refresh, started in [s],
    that received the document [t] with [expires_in = n]. *)
Definition refreshed (E : env) (region : string) (t : gmap string pyobj) (n : Z)
    (s : st) : st :=
  record [SetTokenItem "expires_at" (PNum (time E (ticks (net s)) + n))]
    (install (<["expires_at" := PNum (time E (ticks (net s)) + n)]> t)
       (tick (record [AssignToken t] (install t (record [token_post_of region s] s))))).

(** The order of the keys of two keyword arguments. *)
Definition key_le (a b : string * pyobj) : Prop := String.leb (fst a) (fst b) = true.

(** [params'] is [params] with the one field [field] set to [value]: the
    field reads as [value], every other field reads as before, and the
    fields are in the order they had, a new one at the end. *)
Definition sets_field (field : string) (value : pyobj)
    (params params' : list (string * pyobj)) : Prop :=
  getitem_opt field params' = Some value
  /\ (forall k, k <> field -> getitem_opt k params' = getitem_opt k params)
  /\ fst <$> params'
     = (if has_key field params then fst <$> params else (fst <$> params) ++ [field])%list.

(** Every character. *)
Definition all_chars : list Ascii.ascii := Ascii.ascii_of_nat <$> seq 0 256.

(** The print of [c] is not the beginning of the print of another
    character [d], and it does not begin with the quote. *)
Definition unit_ok (q c d : Ascii.ascii) : bool :=
  Ascii.eqb c d || negb (String.prefix (Scenario.repr_char q c) (Scenario.repr_char q d)).

Definition head_ok (q c : Ascii.ascii) : bool :=
  match Scenario.repr_char q c with
  | String h _ => negb (Ascii.eqb h q)
  | EmptyString => false
  end.

(** Both hold for every character inside the quotes [q]. *)
Definition units_ok (q : Ascii.ascii) : bool :=
  forallb (fun c => head_ok q c && forallb (unit_ok q c) all_chars) all_chars.

(** What [join_comma] appends to the first element of a list. *)
Definition comma_tail (l : list string) : string :=
  foldl (fun acc y => acc +:+ ", " +:+ y) "" l.

(** One item of a dictionary as [repr] prints it. *)
Definition item_repr (it : string * pyobj) : string :=
  Scenario.repr_str (fst it) +:+ ": " +:+ Scenario.repr (snd it).

(** * Properties *)

(** ** Strings *)

Lemma append_assoc (a b c : string) : (a +:+ b) +:+ c = a +:+ (b +:+ c).
Proof.
  induction a as [|ch a IH]; [done|].
  change (String ch ((a +:+ b) +:+ c) = String ch (a +:+ (b +:+ c))). by rewrite IH.
Qed.

Lemma append_cons (c : Ascii.ascii) (a b : string) :
  String c a +:+ b = String c (a +:+ b).
Proof. reflexivity. Qed.

Lemma append_nil (a : string) : "" +:+ a = a.
Proof. reflexivity. Qed.

Lemma append_nil_r (a : string) : a +:+ "" = a.
Proof. induction a as [|c a IH]; [done|]. by rewrite append_cons, IH. Qed.

Lemma append_inv_head (a x y : string) : a +:+ x = a +:+ y -> x = y.
Proof.
  induction a as [|c a IH]; [done|]. rewrite !append_cons. intros [= H]. auto.
Qed.

Lemma append_eq_prefix (u w x y : string) :
  u +:+ x = w +:+ y -> String.prefix u w = true \/ String.prefix w u = true.
Proof.
  revert w. induction u as [|c u IH]; intros w; [intros _; left; by destruct w|].
  destruct w as [|d w]; [intros _; by right|].
  rewrite !append_cons. intros [= -> H]. cbn.
  destruct (Ascii.ascii_dec d d) as [_|]; [|done]. eauto.
Qed.

(** ** Python's printer

    What the properties of the keys need to know of [repr]: where the
    print of a string ends, and how the items of a list and of a
    dictionary follow each other. *)

Lemma in_all_chars c : In c all_chars.
Proof.
  unfold all_chars. rewrite <- (Ascii.ascii_nat_embedding c).
  apply in_map. apply in_seq. pose proof (Ascii.nat_ascii_bounded c). lia.
Qed.

Lemma units_ok_quotes q : q = "'"%char \/ q = Scenario.double_quote -> units_ok q = true.
Proof. intros [->| ->]; vm_compute; reflexivity. Qed.

Lemma repr_char_prefix q c d :
  q = "'"%char \/ q = Scenario.double_quote ->
  String.prefix (Scenario.repr_char q c) (Scenario.repr_char q d) = true -> c = d.
Proof.
  intros Hq Hp.
  pose proof (units_ok_quotes q Hq) as Hok.
  unfold units_ok in Hok. rewrite forallb_forall in Hok.
  specialize (Hok c (in_all_chars c)). apply andb_prop in Hok as [_ Hok].
  rewrite forallb_forall in Hok. specialize (Hok d (in_all_chars d)).
  unfold unit_ok in Hok. rewrite Hp in Hok. cbn in Hok.
  rewrite orb_false_r in Hok. by apply Ascii.eqb_eq.
Qed.

Lemma repr_char_head q c :
  q = "'"%char \/ q = Scenario.double_quote ->
  exists h r, Scenario.repr_char q c = String h r /\ h <> q.
Proof.
  intros Hq.
  pose proof (units_ok_quotes q Hq) as Hok.
  unfold units_ok in Hok. rewrite forallb_forall in Hok.
  specialize (Hok c (in_all_chars c)). apply andb_prop in Hok as [Hok _].
  unfold head_ok in Hok. destruct (Scenario.repr_char q c) as [|h r]; [done|].
  exists h, r. split; [done|]. intros ->. by rewrite Ascii.eqb_refl in Hok.
Qed.

Lemma repr_chars_prefix q a :
  q = "'"%char \/ q = Scenario.double_quote ->
  forall b x y,
    Scenario.repr_chars q a +:+ String q x = Scenario.repr_chars q b +:+ String q y ->
    a = b.
Proof.
  intros Hq. induction a as [|c a IH]; intros [|d b] x y; cbn [Scenario.repr_chars].
  - done.
  - rewrite append_assoc, append_nil.
    destruct (repr_char_head q d Hq) as (h & r & -> & Hh).
    rewrite append_cons. intros [= H _]. congruence.
  - rewrite append_assoc, append_nil.
    destruct (repr_char_head q c Hq) as (h & r & -> & Hh).
    rewrite append_cons. intros [= H _]. congruence.
  - rewrite !append_assoc. intros H.
    assert (c = d) as <-.
    { destruct (append_eq_prefix _ _ _ _ H) as [Hp|Hp];
        [|symmetry]; by apply (repr_char_prefix q). }
    f_equal. apply append_inv_head in H. eauto.
Qed.

Lemma quote_of_cases s :
  Scenario.quote_of s = "'"%char \/ Scenario.quote_of s = Scenario.double_quote.
Proof. unfold Scenario.quote_of. destruct (_ && _); auto. Qed.

(** The printed form of a string ends where its closing quote stands:
    no string is printed as the beginning of the print of another. *)
Lemma repr_str_prefix a b x y :
  Scenario.repr_str a +:+ x = Scenario.repr_str b +:+ y -> a = b.
Proof.
  unfold Scenario.repr_str. rewrite !append_cons, !append_assoc, !append_cons, !append_nil.
  intros [= Hq H]. rewrite <- Hq in H.
  by apply (repr_chars_prefix (Scenario.quote_of a) a (quote_of_cases a)) in H.
Qed.

Lemma foldl_comma (l : list string) (x : string) :
  foldl (fun acc y => acc +:+ ", " +:+ y) x l = x +:+ comma_tail l.
Proof.
  unfold comma_tail. revert x. induction l as [|y l IH]; intros x; cbn [foldl].
  - by rewrite append_nil_r.
  - rewrite (IH (x +:+ ", " +:+ y)), (IH ("" +:+ ", " +:+ y)).
    by rewrite append_nil, !append_assoc.
Qed.

Lemma comma_tail_cons (y : string) (l : list string) :
  comma_tail (y :: l) = ", " +:+ y +:+ comma_tail l.
Proof.
  unfold comma_tail at 1. cbn [foldl]. by rewrite foldl_comma, append_nil, append_assoc.
Qed.

Lemma join_comma_cons (x : string) (l : list string) :
  Scenario.join_comma (x :: l) = x +:+ comma_tail l.
Proof.
  destruct l as [|y l]; cbn [Scenario.join_comma].
  - by rewrite append_nil_r.
  - apply foldl_comma.
Qed.

Lemma repr_dict items :
  Scenario.repr (PDict items) = "{" +:+ Scenario.join_comma (item_repr <$> items) +:+ "}".
Proof. reflexivity. Qed.

(** Two arrangements of the same keyword arguments that are not the same
    list are printed differently from the first place where they differ. *)
Lemma comma_tail_items (l l' : list (string * pyobj)) (x y : string) :
  NoDup (fst <$> l) -> l ≡ₚ l' -> l <> l' ->
  comma_tail (item_repr <$> l) +:+ x <> comma_tail (item_repr <$> l') +:+ y.
Proof.
  revert l' x y. induction l as [|[k v] l IH]; intros l' x y Hnd Hp Hne.
  - apply Permutation_nil_l in Hp. congruence.
  - destruct l' as [|[k' v'] l']; [by apply Permutation_nil_r in Hp|].
    rewrite !fmap_cons, !comma_tail_cons. unfold item_repr at 1 3. cbn [fst snd].
    rewrite !append_assoc. intros H. apply append_inv_head in H.
    pose proof (repr_str_prefix _ _ _ _ H) as <-.
    assert (v' = v) as ->.
    { assert ((k, v') ∈ (k, v) :: l) as Hin by (rewrite Hp; left).
      apply elem_of_cons in Hin as [[= ->]|Hin]; [done|].
      cbn in Hnd. apply NoDup_cons in Hnd as [Hnot _]. destruct Hnot.
      by apply (list_elem_of_fmap_2 fst l (k, v')). }
    do 3 apply append_inv_head in H.
    revert H. apply IH.
    + cbn in Hnd. by apply NoDup_cons in Hnd as [_ ?].
    + by apply Permutation_cons_inv in Hp.
    + congruence.
Qed.

Lemma join_comma_items (l l' : list (string * pyobj)) (x y : string) :
  NoDup (fst <$> l) -> l ≡ₚ l' -> l <> l' ->
  Scenario.join_comma (item_repr <$> l) +:+ x
  <> Scenario.join_comma (item_repr <$> l') +:+ y.
Proof.
  intros Hnd Hp Hne.
  apply (comma_tail_items l l' x y Hnd Hp) in Hne as Hne'.
  destruct l as [|it l]; [apply Permutation_nil_l in Hp; congruence|].
  destruct l' as [|it' l']; [by apply Permutation_nil_r in Hp|].
  rewrite !fmap_cons, !comma_tail_cons in Hne'.
  rewrite !fmap_cons, !join_comma_cons.
  intros H. apply Hne'. rewrite !append_assoc in *. by rewrite H.
Qed.

(** The key of wow_game_data.py follows the order of the keyword arguments. *)
Lemma data_key_follows_order args (kwargs kwargs' : list (string * pyobj)) :
  NoDup (fst <$> kwargs) -> kwargs ≡ₚ kwargs' -> kwargs <> kwargs' ->
  cache_key Scenario.str WowGameDataPy args kwargs
  <> cache_key Scenario.str WowGameDataPy args kwargs'.
Proof.
  intros Hnd Hp Hne. unfold cache_key. intros H. apply append_inv_head in H.
  change (Scenario.str (PDict kwargs)) with (Scenario.repr (PDict kwargs)) in H.
  change (Scenario.str (PDict kwargs')) with (Scenario.repr (PDict kwargs')) in H.
  rewrite !repr_dict, !append_cons, !append_nil in H. injection H as H.
  by apply (join_comma_items kwargs kwargs' "}" "}") in H.
Qed.

(** The key of a call that passes its one argument by position and the
    key of a call that passes it by keyword. *)
Lemma positional_key_ne_keyword_key (d : decorator) (name value : string) :
  cache_key Scenario.str d [] [(name, PStr value)]
  <> cache_key Scenario.str d [PStr value] [].
Proof.
  unfold cache_key.
  assert (exists r, Scenario.str (PTuple [PStr value])
                    = String "(" (String (Scenario.quote_of value) r))
    as [r ->] by (cbn; unfold Scenario.repr_str; rewrite !append_cons; eauto).
  change (Scenario.str (PTuple [])) with "()".
  rewrite !append_cons.
  destruct d; intros [= Hq]; destruct (quote_of_cases value) as [Hc|Hc];
    rewrite Hc in Hq; discriminate Hq.
Qed.

(** ** The Call Memoizer *)

Section MethodCacheFacts.

Context (py_str : pyobj -> string) {St V : Type} (d : decorator).
Context (func : list pyobj -> list (string * pyobj) -> M St V).

Lemma method_cache_hit args kwargs (cache : gmap string V) s v :
  cache !! cache_key py_str d args kwargs = Some v ->
  method_cache py_str d func args kwargs (cache, s) = (Return v, (cache, s)).
Proof. intros Hk. unfold method_cache. by rewrite Hk. Qed.

Lemma method_cache_miss_return args kwargs (cache : gmap string V) s v s' :
  cache !! cache_key py_str d args kwargs = None ->
  func args kwargs s = (Return v, s') ->
  method_cache py_str d func args kwargs (cache, s)
  = (Return v, (<[cache_key py_str d args kwargs := v]> cache, s')).
Proof. intros Hk Hf. unfold method_cache. by rewrite Hk, Hf. Qed.

Lemma method_cache_miss_raise args kwargs (cache : gmap string V) s e s' :
  cache !! cache_key py_str d args kwargs = None ->
  func args kwargs s = (Raise e, s') ->
  method_cache py_str d func args kwargs (cache, s) = (Raise e, (cache, s')).
Proof. intros Hk Hf. unfold method_cache. by rewrite Hk, Hf. Qed.

(** No call removes or replaces an entry. *)
Lemma method_cache_keeps args kwargs (cache : gmap string V) s k v :
  cache !! k = Some v ->
  fst (snd (method_cache py_str d func args kwargs (cache, s))) !! k = Some v.
Proof.
  intros Hk. unfold method_cache.
  destruct (cache !! cache_key py_str d args kwargs) as [u|] eqn:Hkey; [done|].
  destruct (func args kwargs s) as [[u|e] s']; cbn; [|done].
  rewrite lookup_insert_ne; [done|]. intros <-. congruence.
Qed.

End MethodCacheFacts.

Lemma counted_run {St V : Type}
    (func : list pyobj -> list (string * pyobj) -> M St V) args kwargs n s :
  counted func args kwargs (n, s)
  = (fst (func args kwargs s), (S n, snd (func args kwargs s))).
Proof. unfold counted. by destruct (func args kwargs s). Qed.

(** For both [method_cache] decorators, every printer and every memoized
    operation [func], in terms of the keys: a first call whose key is not
    in the table executes [func];
    when [func] returns, the result is stored, every later call with the
    same arguments returns it without executing [func] (the execution
    counter and the state stay as they are), and a call whose arguments
    give another, absent key executes [func] once more; when [func]
    raises, the table is left as it was and a later call with the same
    arguments executes [func] again. *)
Theorem method_cache_memoizes
    (py_str : pyobj -> string) (d : decorator) {St V : Type}
    (func : list pyobj -> list (string * pyobj) -> M St V)
    (args : list pyobj) (kwargs : list (string * pyobj))
    (cache : gmap string V) (n : nat) (s : St) :
  cache !! cache_key py_str d args kwargs = None ->
  (forall v s1, func args kwargs s = (Return v, s1) ->
     method_cache py_str d (counted func) args kwargs (cache, (n, s))
     = (Return v, (<[cache_key py_str d args kwargs := v]> cache, (S n, s1)))
     /\ (forall cache' m s2,
           cache' !! cache_key py_str d args kwargs = Some v ->
           method_cache py_str d (counted func) args kwargs (cache', (m, s2))
           = (Return v, (cache', (m, s2))))
     /\ (forall args' kwargs' m s2,
           cache_key py_str d args' kwargs' <> cache_key py_str d args kwargs ->
           cache !! cache_key py_str d args' kwargs' = None ->
           exists c3,
             method_cache py_str d (counted func) args' kwargs'
               (<[cache_key py_str d args kwargs := v]> cache, (m, s2))
             = (fst (func args' kwargs' s2), (c3, (S m, snd (func args' kwargs' s2))))))
  /\ (forall e s1, func args kwargs s = (Raise e, s1) ->
     method_cache py_str d (counted func) args kwargs (cache, (n, s))
     = (Raise e, (cache, (S n, s1)))
     /\ (forall m s2, exists c3,
           method_cache py_str d (counted func) args kwargs (cache, (m, s2))
           = (fst (func args kwargs s2), (c3, (S m, snd (func args kwargs s2)))))).
Proof.
  intros Hmiss. split.
  - intros v s1 Hf. split; [|split].
    + apply method_cache_miss_return; [done|].
      by rewrite counted_run, Hf.
    + intros cache' m s2 Hhit. by apply method_cache_hit.
    + intros args' kwargs' m s2 Hne Hmiss'.
      unfold method_cache.
      rewrite lookup_insert_ne by congruence. rewrite Hmiss', counted_run.
      destruct (func args' kwargs' s2) as [[u|e] s3]; cbn; eauto.
  - intros e s1 Hf. split.
    + apply method_cache_miss_raise; [done|].
      by rewrite counted_run, Hf.
    + intros m s2. unfold method_cache. rewrite Hmiss, counted_run.
      destruct (func args kwargs s2) as [[u|e'] s3]; cbn; eauto.
Qed.

Lemma method_cache_memoizes_witness :
  (method_cache Scenario.str ApiPy (counted Scenario.flaky) [PStr "us"] []
     (∅, (0%nat, 0%nat))
   = (Return 1,
      (<[cache_key Scenario.str ApiPy [PStr "us"] [] := 1]> ∅, (1%nat, 0%nat)))
   /\ method_cache Scenario.str ApiPy (counted Scenario.flaky) [PStr "us"] []
        (<[cache_key Scenario.str ApiPy [PStr "us"] [] := 1]> ∅, (1%nat, 0%nat))
      = (Return 1,
         (<[cache_key Scenario.str ApiPy [PStr "us"] [] := 1]> ∅, (1%nat, 0%nat))))
  /\ (method_cache Scenario.str WowGameDataPy (counted Scenario.flaky) [PStr "us"] []
        (∅, (0%nat, 1%nat))
      = (Raise ApiConnectionError, (∅, (1%nat, 0%nat)))
      /\ exists c3,
           method_cache Scenario.str WowGameDataPy (counted Scenario.flaky) [PStr "us"] []
             (∅, (1%nat, 0%nat))
           = (Return 1, (c3, (2%nat, 0%nat)))).
Proof.
  split.
  - destruct (method_cache_memoizes Scenario.str ApiPy Scenario.flaky
                [PStr "us"] [] ∅ 0%nat 0%nat (lookup_empty _)) as [Hret _].
    destruct (Hret 1 0%nat eq_refl) as (Hfirst & Hlater & _).
    split; [exact Hfirst|]. apply Hlater. apply lookup_insert_eq.
  - destruct (method_cache_memoizes Scenario.str WowGameDataPy Scenario.flaky
                [PStr "us"] [] ∅ 0%nat 1%nat (lookup_empty _)) as [_ Hraise].
    destruct (Hraise ApiConnectionError 0%nat eq_refl) as (Hfirst & Hlater).
    split; [exact Hfirst|]. exact (Hlater 1%nat 0%nat).
Defined.

(** C8, as amended.  The table belongs to the decorated function, not to
    an instance: once a call on instance [a] has stored a result, a call
    with the same arguments on any instance [b], in any state of the
    world, returns that result without executing [func]; and no later
    call, on whatever instance, removes an entry. *)
Theorem method_cache_shared_by_instances
    (py_str : pyobj -> string) (d : decorator) {Self W V : Type}
    (func : list pyobj -> list (string * pyobj) -> M (Self * W) V)
    (args : list pyobj) (kwargs : list (string * pyobj))
    (cache : gmap string V) (a : Self) (w : W) (v : V) (s1 : Self * W) :
  cache !! cache_key py_str d args kwargs = None ->
  func args kwargs (a, w) = (Return v, s1) ->
  (forall (b : Self) (w2 : W),
     method_cache py_str d func args kwargs
       (fst (snd (method_cache py_str d func args kwargs (cache, (a, w)))), (b, w2))
     = (Return v, (<[cache_key py_str d args kwargs := v]> cache, (b, w2))))
  /\ (forall args' kwargs' (c : gmap string V) (s : Self * W) k u,
        c !! k = Some u ->
        fst (snd (method_cache py_str d func args' kwargs' (c, s))) !! k = Some u).
Proof.
  intros Hmiss Hf. split.
  - intros b w2.
    rewrite (method_cache_miss_return py_str d func args kwargs cache (a, w) v s1) by done.
    cbn [fst snd]. apply method_cache_hit. apply lookup_insert_eq.
  - intros args' kwargs' c s k u Hk. by apply method_cache_keeps.
Qed.

Lemma method_cache_shared_by_instances_witness :
  method_cache Scenario.str ApiPy
    (fun args kwargs (s : string * nat) => (Return (fst s), s)) [PStr "us"] []
    (fst (snd (method_cache Scenario.str ApiPy
                 (fun args kwargs (s : string * nat) => (Return (fst s), s))
                 [PStr "us"] [] (∅, ("a", 0%nat)))),
     ("b", 7%nat))
  = (Return "a", (<[cache_key Scenario.str ApiPy [PStr "us"] [] := "a"]> ∅, ("b", 7%nat))).
Proof.
  destruct (method_cache_shared_by_instances Scenario.str ApiPy
              (fun args kwargs (s : string * nat) => (Return (fst s), s))
              [PStr "us"] [] ∅ "a" 0%nat "a" ("a", 0%nat) (lookup_empty _) eq_refl)
    as [Hshared _].
  exact (Hshared "b" 7%nat).
Defined.

(** C8 fails as stated: a second client, with other credentials, that
    asks for the token of a region after a first client has done so gets
    the token stored by the first client's call, and no token request is
    made with its own credentials. *)
Lemma method_cache_not_instance_scoped :
  self (Scenario.fresh "id-a" "secret-a") <> self (Scenario.fresh "id-b" "secret-b")
  /\ fst (Api.get_client_credentials_token Scenario.str Scenario.unauthorized
            [PStr "us"] [] (∅, Scenario.fresh "id-a" "secret-a"))
     = Return (Scenario.stamped "T0" 3600 0)
  /\ fst (Api.get_client_credentials_token Scenario.str Scenario.unauthorized
            [PStr "us"] []
            (Scenario.then_client
               (Api.get_client_credentials_token Scenario.str Scenario.unauthorized
                  [PStr "us"] [] (∅, Scenario.fresh "id-a" "secret-a"))
               (Scenario.fresh "id-b" "secret-b")))
     = Return (Scenario.stamped "T0" 3600 0)
  /\ List.filter is_network
       (log (net (snd (snd
          (Api.get_client_credentials_token Scenario.str Scenario.unauthorized
             [PStr "us"] []
             (Scenario.then_client
                (Api.get_client_credentials_token Scenario.str Scenario.unauthorized
                   [PStr "us"] [] (∅, Scenario.fresh "id-a" "secret-a"))
                (Scenario.fresh "id-b" "secret-b")))))))
     = [TokenRequest "https://oauth.battle.net/token" "id-a" "secret-a"].
Proof.
  split; [discriminate|].
  split; [vm_compute; reflexivity|].
  split; vm_compute; reflexivity.
Qed.

(** ** Counting events *)

Lemma token_requests_app (l1 l2 : list event) :
  token_requests (l1 ++ l2) = (token_requests l1 + token_requests l2)%nat.
Proof. unfold token_requests. by rewrite List.filter_app, length_app. Qed.

Lemma sends_app (l1 l2 : list event) :
  sends (l1 ++ l2) = (sends l1 + sends l2)%nat.
Proof. unfold sends. by rewrite List.filter_app, length_app. Qed.

Lemma token_requests_snoc (l : list event) (e : event) :
  token_requests (l ++ [e])
  = if is_token_request e then S (token_requests l) else token_requests l.
Proof. rewrite token_requests_app. unfold token_requests. cbn. destruct (is_token_request e); cbn; lia. Qed.

Lemma sends_snoc (l : list event) (e : event) :
  sends (l ++ [e]) = if is_resource_request e then S (sends l) else sends l.
Proof. rewrite sends_app. unfold sends. cbn. destruct (is_resource_request e); cbn; lia. Qed.

(** Simplify the projections of a state built with [record], [tick] and
    [install], and the counts of the events added to a log. *)
#[local] Ltac state :=
  cbn [record tick install refreshed self net log ticks token client_id client_secret
       fst snd];
  rewrite ?token_requests_snoc, ?sends_snoc;
  cbn [is_token_request is_resource_request token_request_of token_post_of].

(** ** The blocking client, step by step *)

Section ApiFacts.

Context (py_str : pyobj -> string) (E : env).

Lemma get_client_credentials_token_func_run region s :
  Api.get_client_credentials_token_func E [PStr region] [] s =
  match fetch_token E (token_requests (log (net s))) with
  | Fetched t =>
      match t !! "access_token" with
      | Some _ =>
          (Return t,
           record [AssignToken t] (install t (record [token_request_of region s] s)))
      | None =>
          (Raise (AuthenticationError (Some (OAuth2Error Api.missing_token))),
           record [token_request_of region s] s)
      end
  | FetchRejected d =>
      (Raise (AuthenticationError (Some (OAuth2Error d))),
       record [token_request_of region s] s)
  | FetchFailed => (Raise RequestException, record [token_request_of region s] s)
  end.
Proof.
  unfold Api.get_client_credentials_token_func, Api.bind_region,
    Api.session_fetch_token, assign_token, write_token, get_token, emit,
    try, bind, ret, raise, is_cn, token_request_of.
  cbn zeta.
  destruct (fetch_token E (token_requests (log (net s)))) as [t| |]; try reflexivity.
  destruct (t !! "access_token"); reflexivity.
Qed.

Lemma get_client_credentials_token_hit region cache s t :
  cache !! cache_key py_str ApiPy [PStr region] [] = Some t ->
  Api.get_client_credentials_token py_str E [PStr region] [] (cache, s)
  = (Return t, (cache, s)).
Proof. apply method_cache_hit. Qed.

Lemma get_client_credentials_token_miss region cache s :
  cache !! cache_key py_str ApiPy [PStr region] [] = None ->
  Api.get_client_credentials_token py_str E [PStr region] [] (cache, s) =
  match fetch_token E (token_requests (log (net s))) with
  | Fetched t =>
      match t !! "access_token" with
      | Some _ =>
          (Return t,
           (<[cache_key py_str ApiPy [PStr region] [] := t]> cache,
            record [AssignToken t] (install t (record [token_request_of region s] s))))
      | None =>
          (Raise (AuthenticationError (Some (OAuth2Error Api.missing_token))),
           (cache, record [token_request_of region s] s))
      end
  | FetchRejected d =>
      (Raise (AuthenticationError (Some (OAuth2Error d))),
       (cache, record [token_request_of region s] s))
  | FetchFailed =>
      (Raise RequestException, (cache, record [token_request_of region s] s))
  end.
Proof.
  intros Hmiss. unfold Api.get_client_credentials_token, method_cache.
  rewrite Hmiss, get_client_credentials_token_func_run.
  destruct (fetch_token E (token_requests (log (net s)))) as [t| |]; try reflexivity.
  destruct (t !! "access_token"); reflexivity.
Qed.

Lemma send_run method url kwargs authorization s :
  Api.send E method url kwargs authorization s =
  (match resource E (sends (log (net s))) with
   | NoResponse => Raise RequestException
   | Response status body =>
       if (400 <=? status) && (status <? 600) then Raise (HTTPError status)
       else match body with
            | Some d => Return d
            | None => Raise JSONDecodeError
            end
   end,
   record [ResourceRequest method url kwargs authorization] s).
Proof.
  unfold Api.send, Api.session_request, session_request, Api.raise_for_status,
    Api.response_json, emit, bind, ret, raise.
  destruct (resource E (sends (log (net s)))) as [|status body]; [done|].
  cbn [fst snd].
  destruct ((400 <=? status) && (status <? 600)); [done|].
  by destruct body.
Qed.

Lemma bearer_run s a :
  token (self s) !! "access_token" = Some a ->
  Api.bearer py_str s = (Return ("Bearer " +:+ py_str a), s).
Proof.
  intros Ha. unfold Api.bearer, get_token, getitem, bind, ret. by rewrite Ha.
Qed.

Lemma token_missing_or_expiring_empty s :
  falsy (token (self s)) = true ->
  Api.token_missing_or_expiring E s = (Return true, s).
Proof.
  intros Hf. unfold Api.token_missing_or_expiring, get_token, bind, ret.
  by rewrite Hf.
Qed.

Lemma token_missing_or_expiring_run s expires_at :
  falsy (token (self s)) = false ->
  token (self s) !! "expires_at" = Some (PNum expires_at) ->
  Api.token_missing_or_expiring E s
  = (Return (expires_at <=? time E (ticks (net s)) + 60), tick s).
Proof.
  intros Hf He.
  unfold Api.token_missing_or_expiring, get_token, py_time, bind, ret.
  by rewrite Hf, He.
Qed.

End ApiFacts.

Section ApiRuns.

Context (py_str : pyobj -> string) (E : env).

(** No token yet, nothing in the table, and the server grants [t]. *)
Lemma authenticate_fresh region cache s t a :
  falsy (token (self s)) = true ->
  cache !! cache_key py_str ApiPy [PStr region] [] = None ->
  fetch_token E (token_requests (log (net s))) = Fetched t ->
  t !! "access_token" = Some a ->
  Api.authenticate py_str E region (cache, s)
  = (Return ("Bearer " +:+ py_str a),
     (<[cache_key py_str ApiPy [PStr region] [] := t]> cache,
      record [AssignToken t] (install t
        (record [AssignToken t] (install t (record [token_request_of region s] s)))))).
Proof.
  intros Hf Hmiss Hfetch Ha.
  unfold Api.authenticate, bind, lift.
  rewrite token_missing_or_expiring_empty by done.
  rewrite get_client_credentials_token_miss by done.
  rewrite Hfetch, Ha.
  unfold assign_token, write_token, emit, bind.
  rewrite (bearer_run py_str _ a) by done.
  reflexivity.
Qed.

(** A token that is not about to expire is used as it is. *)
Lemma authenticate_valid region cache s expires_at a :
  falsy (token (self s)) = false ->
  token (self s) !! "expires_at" = Some (PNum expires_at) ->
  token (self s) !! "access_token" = Some a ->
  expires_at > time E (ticks (net s)) + 60 ->
  Api.authenticate py_str E region (cache, s)
  = (Return ("Bearer " +:+ py_str a), (cache, tick s)).
Proof.
  intros Hf He Ha Hlt.
  unfold Api.authenticate, bind, lift.
  rewrite (token_missing_or_expiring_run E s expires_at) by done.
  replace (expires_at <=? time E (ticks (net s)) + 60) with false by lia.
  unfold ret. rewrite (bearer_run py_str _ a) by done.
  reflexivity.
Qed.

(** A token that is about to expire, with the region in the table. *)
Lemma authenticate_expiring_hit region cache s expires_at t a :
  falsy (token (self s)) = false ->
  token (self s) !! "expires_at" = Some (PNum expires_at) ->
  expires_at <= time E (ticks (net s)) + 60 ->
  cache !! cache_key py_str ApiPy [PStr region] [] = Some t ->
  t !! "access_token" = Some a ->
  Api.authenticate py_str E region (cache, s)
  = (Return ("Bearer " +:+ py_str a),
     (cache, record [AssignToken t] (install t (tick s)))).
Proof.
  intros Hf He Hle Hhit Ha.
  unfold Api.authenticate, bind, lift.
  rewrite (token_missing_or_expiring_run E s expires_at) by done.
  replace (expires_at <=? time E (ticks (net s)) + 60) with true by lia.
  rewrite (get_client_credentials_token_hit py_str E region cache _ t) by done.
  unfold assign_token, write_token, emit, bind.
  rewrite (bearer_run py_str _ a) by done.
  reflexivity.
Qed.

Lemma dispatch_run method url region kwargs authorization cache s :
  Api.dispatch py_str E method url region kwargs authorization (cache, s) =
  let s1 := record [ResourceRequest method url kwargs authorization] s in
  match resource E (sends (log (net s))) with
  | NoResponse => (Raise ApiConnectionError, (cache, s1))
  | Response status body =>
      if (400 <=? status) && (status <? 600) then
        if status =? 401 then Api.retry py_str E method url region kwargs (cache, s1)
        else (Raise (classify_status status), (cache, s1))
      else match body with
           | Some d => (Return d, (cache, s1))
           | None => (Raise ApiConnectionError, (cache, s1))
           end
  end.
Proof.
  unfold Api.dispatch, try, lift. rewrite send_run. cbn zeta.
  destruct (resource E (sends (log (net s)))) as [|status body]; [done|].
  destruct ((400 <=? status) && (status <? 600)).
  - unfold classify_status, raise.
    destruct (status =? 401); [done|].
    destruct (status =? 404); [done|].
    by destruct (status =? 429).
  - by destruct body.
Qed.

(** The retry with the region in the table: the token comes from the
    table, and what the second send raises escapes as it is. *)
Lemma retry_hit method url region kwargs cache s t a :
  cache !! cache_key py_str ApiPy [PStr region] [] = Some t ->
  t !! "access_token" = Some a ->
  Api.retry py_str E method url region kwargs (cache, s) =
  (fst (Api.send E method url kwargs ("Bearer " +:+ py_str a)
          (record [AssignToken t] (install t s))),
   (cache,
    record [ResourceRequest method url kwargs ("Bearer " +:+ py_str a)]
      (record [AssignToken t] (install t s)))).
Proof.
  intros Hhit Ha. unfold Api.retry, bind.
  rewrite (get_client_credentials_token_hit py_str E region cache s t) by done.
  unfold lift, assign_token, write_token, emit, bind.
  rewrite (bearer_run py_str _ a) by done.
  rewrite send_run. reflexivity.
Qed.

(** The blocking client on two 401 answers in a row, starting without a
    token: the retry takes the token from the table, and the second 401
    leaves [request] as the [HTTPError] of requests. *)
Lemma Api_request_401_twice method resource_path region kwargs cache s t a b0 b1 :
  valid_region region = true ->
  falsy (token (self s)) = true ->
  cache !! cache_key py_str ApiPy [PStr region] [] = None ->
  fetch_token E (token_requests (log (net s))) = Fetched t ->
  t !! "access_token" = Some a ->
  resource E (sends (log (net s))) = Response 401 b0 ->
  resource E (S (sends (log (net s)))) = Response 401 b1 ->
  Api.request py_str E method resource_path region kwargs (cache, s)
  = (Raise (HTTPError 401),
     (<[cache_key py_str ApiPy [PStr region] [] := t]> cache,
      record [ResourceRequest method (_format_url resource_path region) kwargs
                ("Bearer " +:+ py_str a)]
        (record [AssignToken t] (install t
          (record [ResourceRequest method (_format_url resource_path region) kwargs
                     ("Bearer " +:+ py_str a)]
            (record [AssignToken t] (install t
              (record [AssignToken t] (install t
                (record [token_request_of region s] s)))))))))).
Proof.
  intros Hv Hf Hmiss Hfetch Ha H0 H1.
  unfold Api.request. rewrite Hv. cbn [negb]. unfold bind.
  rewrite (authenticate_fresh region cache s t a) by done.
  rewrite dispatch_run. cbn zeta. state. rewrite H0.
  change ((400 <=? 401) && (401 <? 600)) with true. change (401 =? 401) with true.
  cbn match.
  rewrite (retry_hit _ _ _ _ _ _ t a) by (done || apply lookup_insert_eq).
  rewrite send_run. state. rewrite H1.
  change ((400 <=? 401) && (401 <? 600)) with true.
  reflexivity.
Qed.

End ApiRuns.

(** ** The cooperative client, step by step *)

Section AsyncApiRuns.

Context (py_str : pyobj -> string) (E : env).

Lemma _refresh_token_run region s :
  AsyncApi._refresh_token E region s =
  let s1 := record [token_post_of region s] s in
  match post_token E (token_requests (log (net s))) with
  | NoResponse => (Raise ClientError, s1)
  | Response status body =>
      if 400 <=? status
      then (Raise (AuthenticationError (Some (ClientResponseError status))), s1)
      else
        match body with
        | None => (Raise ValueError, s1)
        | Some t =>
            let s2 := tick (record [AssignToken t] (install t s1)) in
            match t !! "expires_in" with
            | None => (Raise (KeyError "expires_in"), s2)
            | Some (PNum n) =>
                let expires_at := PNum (time E (ticks (net s)) + n) in
                (Return tt,
                 record [SetTokenItem "expires_at" expires_at]
                   (install (<["expires_at" := expires_at]> t) s2))
            | Some _ => (Raise TypeError, s2)
            end
        end
  end.
Proof.
  unfold AsyncApi._refresh_token, AsyncApi.session_post, AsyncApi.raise_for_status,
    AsyncApi.add_to_time, json_of, getitem, assign_token, set_token_item,
    write_token, get_token, py_time, emit, try, bind, ret, raise, token_post_of.
  cbn zeta.
  destruct (post_token E (token_requests (log (net s)))) as [|status body]; [done|].
  cbn [fst snd].
  destruct (400 <=? status); [done|].
  destruct body as [t|]; [|done].
  state.
  destruct (t !! "expires_in") as [[]|]; reflexivity.
Qed.

Lemma async_bearer_run s a :
  token (self s) !! "access_token" = Some a ->
  AsyncApi.bearer py_str s = (Return ("Bearer " +:+ py_str a), s).
Proof.
  intros Ha. unfold AsyncApi.bearer, get_token, getitem, bind, ret. by rewrite Ha.
Qed.

Lemma _refresh_token_granted region s status t n :
  post_token E (token_requests (log (net s))) = Response status (Some t) ->
  status < 400 ->
  t !! "expires_in" = Some (PNum n) ->
  AsyncApi._refresh_token E region s = (Return tt, refreshed E region t n s).
Proof.
  intros Hp Hs Hn. rewrite _refresh_token_run, Hp. cbn zeta.
  replace (400 <=? status) with false by lia. by rewrite Hn.
Qed.

End AsyncApiRuns.

Section AsyncApiDispatch.

Context (py_str : pyobj -> string) (E : env).

Lemma async_token_missing_or_expiring_run now s expires_at :
  falsy (token (self s)) = false ->
  token (self s) !! "expires_at" = Some (PNum expires_at) ->
  AsyncApi.token_missing_or_expiring now s = (Return (expires_at <=? now + 60), s).
Proof.
  intros Hf He. unfold AsyncApi.token_missing_or_expiring, get_token, bind, ret.
  by rewrite Hf, He.
Qed.

(** No token yet, and the server grants [t]. *)
Lemma async_authenticate_fresh region s status t n a :
  falsy (token (self s)) = true ->
  post_token E (token_requests (log (net s))) = Response status (Some t) ->
  status < 400 ->
  t !! "expires_in" = Some (PNum n) ->
  t !! "access_token" = Some a ->
  AsyncApi.authenticate py_str E region s
  = (Return ("Bearer " +:+ py_str a), refreshed E region t n (tick s)).
Proof.
  intros Hf Hp Hs Hn Ha.
  unfold AsyncApi.authenticate, AsyncApi.token_missing_or_expiring, py_time,
    get_token, bind, ret.
  state. rewrite Hf.
  rewrite (_refresh_token_granted E region (tick s) status t n) by done.
  rewrite (async_bearer_run py_str _ a); [done|].
  state. rewrite lookup_insert_ne by done. done.
Qed.

(** A token that is not about to expire is used as it is. *)
Lemma async_authenticate_valid region s expires_at a :
  falsy (token (self s)) = false ->
  token (self s) !! "expires_at" = Some (PNum expires_at) ->
  token (self s) !! "access_token" = Some a ->
  expires_at > time E (ticks (net s)) + 60 ->
  AsyncApi.authenticate py_str E region s
  = (Return ("Bearer " +:+ py_str a), tick s).
Proof.
  intros Hf He Ha Hlt.
  unfold AsyncApi.authenticate, py_time, bind.
  rewrite (async_token_missing_or_expiring_run _ (tick s) expires_at) by done.
  replace (expires_at <=? time E (ticks (net s)) + 60) with false by lia.
  unfold ret. by rewrite (async_bearer_run py_str _ a).
Qed.

(** A token that is about to expire is replaced by a granted one. *)
Lemma async_authenticate_expiring region s expires_at status t n a :
  falsy (token (self s)) = false ->
  token (self s) !! "expires_at" = Some (PNum expires_at) ->
  expires_at <= time E (ticks (net s)) + 60 ->
  post_token E (token_requests (log (net s))) = Response status (Some t) ->
  status < 400 ->
  t !! "expires_in" = Some (PNum n) ->
  t !! "access_token" = Some a ->
  AsyncApi.authenticate py_str E region s
  = (Return ("Bearer " +:+ py_str a), refreshed E region t n (tick s)).
Proof.
  intros Hf He Hle Hp Hs Hn Ha.
  unfold AsyncApi.authenticate, py_time, bind.
  rewrite (async_token_missing_or_expiring_run _ (tick s) expires_at) by done.
  replace (expires_at <=? time E (ticks (net s)) + 60) with true by lia.
  rewrite (_refresh_token_granted E region (tick s) status t n) by done.
  rewrite (async_bearer_run py_str _ a); [done|].
  state. rewrite lookup_insert_ne by done. done.
Qed.

Lemma async_dispatch_run method url region kwargs authorization s :
  AsyncApi.dispatch py_str E method url region kwargs authorization s =
  let s1 := record [ResourceRequest method url kwargs authorization] s in
  match resource E (sends (log (net s))) with
  | NoResponse => (Raise ApiConnectionError, s1)
  | Response status body =>
      if status =? 401
      then try (AsyncApi.retry py_str E method url region kwargs) AsyncApi.on_error s1
      else if 400 <=? status then (Raise (classify_status status), s1)
      else match body with
           | Some d => (Return d, s1)
           | None => (Raise InvalidResponseError, s1)
           end
  end.
Proof.
  unfold AsyncApi.dispatch, AsyncApi.session_request, session_request,
    AsyncApi.raise_for_status, json_of, emit, try, bind, ret, raise.
  cbn zeta.
  destruct (resource E (sends (log (net s)))) as [|status body]; [done|].
  cbn [fst snd].
  destruct (status =? 401) eqn:H401; [done|].
  destruct (400 <=? status).
  - unfold AsyncApi.on_error, classify_status, raise. rewrite H401.
    destruct (status =? 404); [done|]. by destruct (status =? 429).
  - by destruct body.
Qed.

(** The retry when the server grants [t]: a real token request, then the
    second send, whose failure the [except] clauses classify. *)
Lemma async_retry_granted method url region kwargs s status t n a :
  post_token E (token_requests (log (net s))) = Response status (Some t) ->
  status < 400 ->
  t !! "expires_in" = Some (PNum n) ->
  t !! "access_token" = Some a ->
  try (AsyncApi.retry py_str E method url region kwargs) AsyncApi.on_error s =
  let s1 := refreshed E region t n s in
  (match resource E (sends (log (net s))) with
   | NoResponse => Raise ApiConnectionError
   | Response status' body =>
       if 400 <=? status' then
         if status' =? 401 then Raise (AuthenticationError None)
         else Raise (classify_status status')
       else match body with
            | Some d => Return d
            | None => Raise InvalidResponseError
            end
   end,
   record [ResourceRequest method url kwargs ("Bearer " +:+ py_str a)] s1).
Proof.
  intros Hp Hs Hn Ha.
  unfold AsyncApi.retry, try, bind.
  rewrite (_refresh_token_granted E region s status t n) by done.
  rewrite (async_bearer_run py_str _ a);
    [|state; rewrite lookup_insert_ne by done; done].
  unfold AsyncApi.session_request, session_request, AsyncApi.raise_for_status,
    json_of, emit, bind, ret, raise.
  state.
  destruct (resource E (sends (log (net s)))) as [|status' body]; [done|].
  cbn [fst snd].
  destruct (400 <=? status').
  - unfold AsyncApi.on_error, classify_status, raise.
    destruct (status' =? 401); [done|].
    destruct (status' =? 404); [done|]. by destruct (status' =? 429).
  - by destruct body.
Qed.

(** The cooperative client on two 401 answers in a row, starting without
    a token: two token requests, two sends, [AuthenticationError]. *)
Lemma AsyncApi_request_401_twice method resource_path region kwargs s
    st0 t0 n0 a0 st1 t1 n1 a1 b0 b1 :
  valid_region region = true ->
  falsy (token (self s)) = true ->
  post_token E (token_requests (log (net s))) = Response st0 (Some t0) ->
  st0 < 400 -> t0 !! "expires_in" = Some (PNum n0) -> t0 !! "access_token" = Some a0 ->
  post_token E (S (token_requests (log (net s)))) = Response st1 (Some t1) ->
  st1 < 400 -> t1 !! "expires_in" = Some (PNum n1) -> t1 !! "access_token" = Some a1 ->
  resource E (sends (log (net s))) = Response 401 b0 ->
  resource E (S (sends (log (net s)))) = Response 401 b1 ->
  AsyncApi.request py_str E method resource_path region kwargs s
  = (Raise (AuthenticationError None),
     record [ResourceRequest method (_format_url resource_path region) kwargs
               ("Bearer " +:+ py_str a1)]
       (refreshed E region t1 n1
          (record [ResourceRequest method (_format_url resource_path region) kwargs
                     ("Bearer " +:+ py_str a0)]
             (refreshed E region t0 n0 (tick s))))).
Proof.
  intros Hv Hf Hp0 Hs0 Hn0 Ha0 Hp1 Hs1 Hn1 Ha1 H0 H1.
  unfold AsyncApi.request. rewrite Hv. cbn [negb]. unfold bind.
  rewrite (async_authenticate_fresh region s st0 t0 n0 a0) by done.
  cbn zeta. rewrite async_dispatch_run. cbn zeta. state. rewrite H0.
  change (401 =? 401) with true. cbn match.
  rewrite (async_retry_granted _ _ _ _ _ st1 t1 n1 a1); try done.
  - cbn zeta. state. rewrite H1. reflexivity.
  - state. done.
Qed.

End AsyncApiDispatch.

(** ** The 401 refresh-and-retry step *)

(** C1.  The blocking client, started without a token on a region that is
    not in the table of [get_client_credentials_token], and answered 401
    twice: it sends twice, but the refresh before the retry is served from
    the table, so that there is one token request in all, and the second
    401 leaves [request] as the [HTTPError] of requests, not as an
    [AuthenticationError]. *)
Theorem Api_second_401_escapes
    (py_str : pyobj -> string) (E : env) (method resource_path region : string)
    (kwargs : list (string * pyobj)) (cache : gmap string (gmap string pyobj))
    (s : st) (t : gmap string pyobj) (a : pyobj) (b0 b1 : option (gmap string pyobj)) :
  valid_region region = true ->
  falsy (token (self s)) = true ->
  cache !! cache_key py_str ApiPy [PStr region] [] = None ->
  fetch_token E (token_requests (log (net s))) = Fetched t ->
  t !! "access_token" = Some a ->
  resource E (sends (log (net s))) = Response 401 b0 ->
  resource E (S (sends (log (net s)))) = Response 401 b1 ->
  fst (Api.request py_str E method resource_path region kwargs (cache, s))
  = Raise (HTTPError 401)
  /\ sends (log (net (snd (snd
       (Api.request py_str E method resource_path region kwargs (cache, s))))))
     = S (S (sends (log (net s))))
  /\ token_requests (log (net (snd (snd
       (Api.request py_str E method resource_path region kwargs (cache, s))))))
     = S (token_requests (log (net s))).
Proof.
  intros Hv Hf Hmiss Hfetch Ha H0 H1.
  rewrite (Api_request_401_twice py_str E method resource_path region kwargs
             cache s t a b0 b1) by done.
  state. done.
Qed.

Lemma Api_second_401_escapes_witness :
  fst (Api.request Scenario.str Scenario.unauthorized "GET" "/data/x/1" "us" []
         (∅, Scenario.fresh "id" "secret"))
  = Raise (HTTPError 401)
  /\ sends (log (net (snd (snd
       (Api.request Scenario.str Scenario.unauthorized "GET" "/data/x/1" "us" []
          (∅, Scenario.fresh "id" "secret"))))))
     = 2%nat
  /\ token_requests (log (net (snd (snd
       (Api.request Scenario.str Scenario.unauthorized "GET" "/data/x/1" "us" []
          (∅, Scenario.fresh "id" "secret"))))))
     = 1%nat.
Proof.
  apply (Api_second_401_escapes Scenario.str Scenario.unauthorized
           "GET" "/data/x/1" "us" [] ∅ (Scenario.fresh "id" "secret")
           (Scenario.stamped "T0" 3600 0) (PStr "T0") None None);
    vm_compute; reflexivity.
Defined.

(** C2.  On the same answers (a token is granted to every token request,
    the resource server answers 401 twice) the two dispatchers differ: the
    blocking client raises the [HTTPError] of requests after one token
    request, the cooperative client raises [AuthenticationError] after
    two. *)
Theorem Api_and_AsyncApi_differ_on_401
    (py_str : pyobj -> string) (E : env) (method resource_path region : string)
    (kwargs : list (string * pyobj)) (cache : gmap string (gmap string pyobj))
    (s : st) (t : gmap string pyobj) (a : pyobj)
    (st0 : Z) (t0 : gmap string pyobj) (n0 : Z) (a0 : pyobj)
    (st1 : Z) (t1 : gmap string pyobj) (n1 : Z) (a1 : pyobj)
    (b0 b1 : option (gmap string pyobj)) :
  valid_region region = true ->
  falsy (token (self s)) = true ->
  cache !! cache_key py_str ApiPy [PStr region] [] = None ->
  fetch_token E (token_requests (log (net s))) = Fetched t ->
  t !! "access_token" = Some a ->
  post_token E (token_requests (log (net s))) = Response st0 (Some t0) ->
  st0 < 400 -> t0 !! "expires_in" = Some (PNum n0) -> t0 !! "access_token" = Some a0 ->
  post_token E (S (token_requests (log (net s)))) = Response st1 (Some t1) ->
  st1 < 400 -> t1 !! "expires_in" = Some (PNum n1) -> t1 !! "access_token" = Some a1 ->
  resource E (sends (log (net s))) = Response 401 b0 ->
  resource E (S (sends (log (net s)))) = Response 401 b1 ->
  fst (Api.request py_str E method resource_path region kwargs (cache, s))
  <> fst (AsyncApi.request py_str E method resource_path region kwargs s)
  /\ token_requests (log (net (snd (snd
       (Api.request py_str E method resource_path region kwargs (cache, s))))))
     <> token_requests (log (net (snd
       (AsyncApi.request py_str E method resource_path region kwargs s)))).
Proof.
  intros Hv Hf Hmiss Hfetch Ha Hp0 Hs0 Hn0 Ha0 Hp1 Hs1 Hn1 Ha1 H0 H1.
  rewrite (Api_request_401_twice py_str E method resource_path region kwargs
             cache s t a b0 b1) by done.
  rewrite (AsyncApi_request_401_twice py_str E method resource_path region kwargs s
             st0 t0 n0 a0 st1 t1 n1 a1 b0 b1) by done.
  state. split; [discriminate | lia].
Qed.

Lemma Api_and_AsyncApi_differ_on_401_witness :
  fst (Api.request Scenario.str Scenario.unauthorized "GET" "/data/x/1" "us" []
         (∅, Scenario.fresh "id" "secret"))
  <> fst (AsyncApi.request Scenario.str Scenario.unauthorized "GET" "/data/x/1" "us" []
            (Scenario.fresh "id" "secret"))
  /\ token_requests (log (net (snd (snd
       (Api.request Scenario.str Scenario.unauthorized "GET" "/data/x/1" "us" []
          (∅, Scenario.fresh "id" "secret"))))))
     <> token_requests (log (net (snd
       (AsyncApi.request Scenario.str Scenario.unauthorized "GET" "/data/x/1" "us" []
          (Scenario.fresh "id" "secret"))))).
Proof.
  apply (Api_and_AsyncApi_differ_on_401 Scenario.str Scenario.unauthorized
           "GET" "/data/x/1" "us" [] ∅ (Scenario.fresh "id" "secret")
           (Scenario.stamped "T0" 3600 0) (PStr "T0")
           200 (Scenario.granted "T0" 3600) 3600 (PStr "T0")
           200 (Scenario.granted "T1" 3600) 3600 (PStr "T1")
           None None);
    vm_compute; (reflexivity || lia || done).
Defined.

(** ** Failures of the token request *)

(** C3 fails as stated: when the authorization server cannot be reached,
    the token-fetch operations raise the exception of the transport
    library, not [AuthenticationError]. *)
Lemma token_fetch_transport_failure_escapes :
  fst (Api.get_client_credentials_token Scenario.str Scenario.unreachable
         [PStr "us"] [] (∅, Scenario.fresh "id" "secret"))
  = Raise RequestException
  /\ fst (AsyncApi._refresh_token Scenario.unreachable "us" (Scenario.fresh "id" "secret"))
     = Raise ClientError.
Proof. vm_compute. split; reflexivity. Qed.

(** C3, as amended.  For every region: when the authorization server
    rejects the token request ([OAuth2Error] from [fetch_token] in the
    blocking client, a status from 400 on in the cooperative client), the
    token-fetch operation raises [AuthenticationError] wrapping that
    cause; when the token request fails in the transport, the exception of
    the transport library escapes unwrapped. *)
Theorem token_fetch_failures
    (py_str : pyobj -> string) (E : env) (region : string)
    (cache : gmap string (gmap string pyobj)) (s : st) :
  cache !! cache_key py_str ApiPy [PStr region] [] = None ->
  (forall d, fetch_token E (token_requests (log (net s))) = FetchRejected d ->
     fst (Api.get_client_credentials_token py_str E [PStr region] [] (cache, s))
     = Raise (AuthenticationError (Some (OAuth2Error d))))
  /\ (fetch_token E (token_requests (log (net s))) = FetchFailed ->
     fst (Api.get_client_credentials_token py_str E [PStr region] [] (cache, s))
     = Raise RequestException)
  /\ (forall status body,
        post_token E (token_requests (log (net s))) = Response status body ->
        400 <= status ->
        fst (AsyncApi._refresh_token E region s)
        = Raise (AuthenticationError (Some (ClientResponseError status))))
  /\ (post_token E (token_requests (log (net s))) = NoResponse ->
      fst (AsyncApi._refresh_token E region s) = Raise ClientError).
Proof.
  intros Hmiss. repeat split.
  - intros d Hd. rewrite get_client_credentials_token_miss by done. by rewrite Hd.
  - intros Hd. rewrite get_client_credentials_token_miss by done. by rewrite Hd.
  - intros status body Hp Hs. rewrite _refresh_token_run, Hp. cbn zeta.
    by replace (400 <=? status) with true by lia.
  - intros Hp. by rewrite _refresh_token_run, Hp.
Qed.

Lemma token_fetch_failures_witness :
  fst (Api.get_client_credentials_token Scenario.str Scenario.rejecting
         [PStr "eu"] [] (∅, Scenario.fresh "id" "secret"))
  = Raise (AuthenticationError (Some (OAuth2Error "invalid_client")))
  /\ fst (AsyncApi._refresh_token Scenario.rejecting "eu" (Scenario.fresh "id" "secret"))
     = Raise (AuthenticationError (Some (ClientResponseError 401)))
  /\ fst (Api.get_client_credentials_token Scenario.str Scenario.unreachable
            [PStr "eu"] [] (∅, Scenario.fresh "id" "secret"))
     = Raise RequestException
  /\ fst (AsyncApi._refresh_token Scenario.unreachable "eu" (Scenario.fresh "id" "secret"))
     = Raise ClientError.
Proof.
  destruct (token_fetch_failures Scenario.str Scenario.rejecting "eu" ∅
              (Scenario.fresh "id" "secret") (lookup_empty _)) as (Hr & _ & Hs & _).
  destruct (token_fetch_failures Scenario.str Scenario.unreachable "eu" ∅
              (Scenario.fresh "id" "secret") (lookup_empty _)) as (_ & Hf & _ & Hn).
  split; [exact (Hr "invalid_client" eq_refl)|].
  split; [apply (Hs 401 None eq_refl); lia|].
  split; [exact (Hf eq_refl) | exact (Hn eq_refl)].
Defined.

(** ** Region validation *)

(** C5.  For every region code outside the fixed set, both dispatchers
    raise [InvalidRegionError] and leave the state as it was: the log is
    the same, so neither a token request nor a resource request has been
    issued. *)
Theorem invalid_region_no_network
    (py_str : pyobj -> string) (E : env) (method resource_path region : string)
    (kwargs : list (string * pyobj)) (cache : gmap string (gmap string pyobj))
    (s : st) :
  region ∉ regions ->
  Api.request py_str E method resource_path region kwargs (cache, s)
  = (Raise (InvalidRegionError region), (cache, s))
  /\ AsyncApi.request py_str E method resource_path region kwargs s
     = (Raise (InvalidRegionError region), s).
Proof.
  intros Hr.
  assert (valid_region region = false) as Hv
    by (unfold valid_region; by apply bool_decide_eq_false_2).
  unfold Api.request, AsyncApi.request. rewrite Hv. done.
Qed.

Lemma invalid_region_no_network_witness :
  Api.request Scenario.str Scenario.unauthorized "GET" "/data/x/1" "mars" []
    (∅, Scenario.fresh "id" "secret")
  = (Raise (InvalidRegionError "mars"), (∅, Scenario.fresh "id" "secret"))
  /\ AsyncApi.request Scenario.str Scenario.unauthorized "GET" "/data/x/1" "mars" []
       (Scenario.fresh "id" "secret")
     = (Raise (InvalidRegionError "mars"), Scenario.fresh "id" "secret").
Proof.
  apply (invalid_region_no_network Scenario.str Scenario.unauthorized
           "GET" "/data/x/1" "mars" [] ∅ (Scenario.fresh "id" "secret")).
  unfold regions. intros H. repeat (apply elem_of_cons in H as [H|H]; [discriminate H|]).
  by apply elem_of_nil in H.
Defined.

(** ** Status classification *)

(** C6 fails as stated: a 300 answer is not a 2xx answer, and neither
    dispatcher raises on it; the body is decoded and returned. *)
Lemma status_300_is_returned :
  fst (Api.request Scenario.str Scenario.multiple_choices "GET" "/data/x/1" "us" []
         (∅, Scenario.fresh "id" "secret"))
  = Return ∅
  /\ fst (AsyncApi.request Scenario.str Scenario.multiple_choices "GET" "/data/x/1" "us" []
            (Scenario.fresh "id" "secret"))
     = Return ∅.
Proof. split; vm_compute; reflexivity. Qed.

(** C6, as amended.  When the answer to the first send of a call has a
    status on which [raise_for_status] raises (400 to 599 in the blocking
    client, 400 and more in the cooperative client) other than 401, the
    call ends with [ResourceNotFoundError] for 404, [RateLimitError] for
    429 and the base exception carrying the status otherwise; the state
    is the one after authentication with the one send recorded: no token
    refresh and no second send.  On every other status (below 400, and in
    the blocking client also from 600 on) the call does not raise for the
    status: a body that is a document is returned, again after the one
    send. *)
Theorem error_statuses_end_the_call
    (py_str : pyobj -> string) (E : env) (method resource_path region : string)
    (kwargs : list (string * pyobj)) (status : Z) (body : option (gmap string pyobj)) :
  valid_region region = true ->
  status <> 401 ->
  (classify_status 404 = ResourceNotFoundError
   /\ classify_status 429 = RateLimitError
   /\ (status <> 404 -> status <> 429 ->
       classify_status status = BlizzardApiException status))
  /\ (forall cache s authorization cache1 s1,
        Api.authenticate py_str E region (cache, s)
        = (Return authorization, (cache1, s1)) ->
        resource E (sends (log (net s1))) = Response status body ->
        (400 <= status < 600 ->
         Api.request py_str E method resource_path region kwargs (cache, s)
         = (Raise (classify_status status),
            (cache1,
             record [ResourceRequest method (_format_url resource_path region) kwargs
                       authorization] s1)))
        /\ (forall d,
              ~ 400 <= status < 600 -> body = Some d ->
              Api.request py_str E method resource_path region kwargs (cache, s)
              = (Return d,
                 (cache1,
                  record [ResourceRequest method (_format_url resource_path region) kwargs
                            authorization] s1))))
  /\ (forall s authorization s1,
        AsyncApi.authenticate py_str E region s = (Return authorization, s1) ->
        resource E (sends (log (net s1))) = Response status body ->
        (400 <= status ->
         AsyncApi.request py_str E method resource_path region kwargs s
         = (Raise (classify_status status),
            record [ResourceRequest method (_format_url resource_path region) kwargs
                      authorization] s1))
        /\ (forall d,
              status < 400 -> body = Some d ->
              AsyncApi.request py_str E method resource_path region kwargs s
              = (Return d,
                 record [ResourceRequest method (_format_url resource_path region) kwargs
                           authorization] s1))).
Proof.
  intros Hv H401. split; [|split].
  - repeat split. intros H404 H429. unfold classify_status.
    replace (status =? 404) with false by lia.
    by replace (status =? 429) with false by lia.
  - intros cache s authorization cache1 s1 Hauth Hres.
    assert (Api.request py_str E method resource_path region kwargs (cache, s)
            = Api.dispatch py_str E method (_format_url resource_path region) region
                kwargs authorization (cache1, s1)) as ->.
    { unfold Api.request. rewrite Hv. cbn [negb]. unfold bind. by rewrite Hauth. }
    rewrite dispatch_run. cbn zeta. rewrite Hres. split.
    + intros Hrange.
      replace ((400 <=? status) && (status <? 600)) with true by lia.
      by replace (status =? 401) with false by lia.
    + intros d Hrange ->.
      by replace ((400 <=? status) && (status <? 600)) with false by lia.
  - intros s authorization s1 Hauth Hres.
    assert (AsyncApi.request py_str E method resource_path region kwargs s
            = AsyncApi.dispatch py_str E method (_format_url resource_path region) region
                kwargs authorization s1) as ->.
    { unfold AsyncApi.request. rewrite Hv. cbn [negb]. unfold bind. by rewrite Hauth. }
    rewrite async_dispatch_run. cbn zeta. rewrite Hres.
    replace (status =? 401) with false by lia. split.
    + intros Hrange. by replace (400 <=? status) with true by lia.
    + intros d Hrange ->. by replace (400 <=? status) with false by lia.
Qed.

Lemma error_statuses_end_the_call_witness :
  fst (Api.request Scenario.str (Scenario.server 404 None 0 (fun _ => 0))
         "GET" "/data/x/1" "us" [] (∅, Scenario.signed_in))
  = Raise ResourceNotFoundError
  /\ fst (AsyncApi.request Scenario.str (Scenario.server 404 None 0 (fun _ => 0))
            "GET" "/data/x/1" "us" [] Scenario.signed_in)
     = Raise ResourceNotFoundError
  /\ fst (Api.request Scenario.str Scenario.multiple_choices
            "GET" "/data/x/1" "us" [] (∅, Scenario.signed_in))
     = Return ∅
  /\ fst (AsyncApi.request Scenario.str Scenario.multiple_choices
            "GET" "/data/x/1" "us" [] Scenario.signed_in)
     = Return ∅.
Proof.
  destruct (error_statuses_end_the_call Scenario.str
              (Scenario.server 404 None 0 (fun _ => 0)) "GET" "/data/x/1" "us" []
              404 None eq_refl) as (_ & Hsync & Hasync); [lia|].
  destruct (error_statuses_end_the_call Scenario.str
              Scenario.multiple_choices "GET" "/data/x/1" "us" []
              300 (Some ∅) eq_refl) as (_ & Hsync' & Hasync'); [lia|].
  split; [|split; [|split]].
  - destruct (Hsync ∅ Scenario.signed_in "Bearer T0" ∅ (tick Scenario.signed_in))
      as [Herr _]; [vm_compute; reflexivity | reflexivity|].
    rewrite Herr by lia. reflexivity.
  - destruct (Hasync Scenario.signed_in "Bearer T0" (tick Scenario.signed_in))
      as [Herr _]; [vm_compute; reflexivity | reflexivity|].
    rewrite Herr by lia. reflexivity.
  - destruct (Hsync' ∅ Scenario.signed_in "Bearer T0" ∅ (tick Scenario.signed_in))
      as [_ Hok]; [vm_compute; reflexivity | reflexivity|].
    rewrite (Hok ∅) by (lia || reflexivity). reflexivity.
  - destruct (Hasync' Scenario.signed_in "Bearer T0" (tick Scenario.signed_in))
      as [_ Hok]; [vm_compute; reflexivity | reflexivity|].
    rewrite (Hok ∅) by (lia || reflexivity). reflexivity.
Defined.

(** ** Token lifecycle *)

(** A token obtained with [expires_in = 3600] at time [issued] is used as
    it is by every call that reads the clock before [issued + 3540]: the
    only step that can request a token leaves the log as it found it. *)
Lemma token_reused_within_the_hour
    (py_str : pyobj -> string) (E : env) (region : string)
    (cache : gmap string (gmap string pyobj)) (s : st) (issued : Z) (a : pyobj) :
  falsy (token (self s)) = false ->
  token (self s) !! "expires_at" = Some (PNum (issued + 3600)) ->
  token (self s) !! "access_token" = Some a ->
  time E (ticks (net s)) < issued + 3540 ->
  Api.authenticate py_str E region (cache, s)
  = (Return ("Bearer " +:+ py_str a), (cache, tick s))
  /\ AsyncApi.authenticate py_str E region s
     = (Return ("Bearer " +:+ py_str a), tick s).
Proof.
  intros Hf He Ha Hlt. split.
  - apply (authenticate_valid py_str E region cache s (issued + 3600) a); (done || lia).
  - apply (async_authenticate_valid py_str E region s (issued + 3600) a); (done || lia).
Qed.

(** The cooperative client replaces a token that is about to expire by
    the one the server grants, with one token request. *)
Lemma AsyncApi_refreshes_on_expiry
    (py_str : pyobj -> string) (E : env) (region : string) (s : st)
    (expires_at status : Z) (t : gmap string pyobj) (n : Z) (a : pyobj) :
  falsy (token (self s)) = false ->
  token (self s) !! "expires_at" = Some (PNum expires_at) ->
  expires_at <= time E (ticks (net s)) + 60 ->
  post_token E (token_requests (log (net s))) = Response status (Some t) ->
  status < 400 ->
  t !! "expires_in" = Some (PNum n) ->
  t !! "access_token" = Some a ->
  token_requests (log (net (snd (AsyncApi.authenticate py_str E region s))))
  = S (token_requests (log (net s)))
  /\ token (self (snd (AsyncApi.authenticate py_str E region s)))
     = <["expires_at" := PNum (time E (S (ticks (net s))) + n)]> t.
Proof.
  intros Hf He Hle Hp Hs Hn Ha.
  rewrite (async_authenticate_expiring py_str E region s expires_at status t n a)
    by done.
  state. done.
Qed.

(** C4.  The blocking client with a token that is about to expire and the
    region in the table of [get_client_credentials_token]: whatever the
    resource server answers, the call issues no token request, and the
    token it leaves installed is the one from the table, not a new one. *)
Theorem Api_never_refreshes_on_expiry
    (py_str : pyobj -> string) (E : env) (method resource_path region : string)
    (kwargs : list (string * pyobj)) (cache : gmap string (gmap string pyobj))
    (s : st) (expires_at : Z) (t : gmap string pyobj) (a : pyobj) :
  valid_region region = true ->
  falsy (token (self s)) = false ->
  token (self s) !! "expires_at" = Some (PNum expires_at) ->
  expires_at <= time E (ticks (net s)) + 60 ->
  cache !! cache_key py_str ApiPy [PStr region] [] = Some t ->
  t !! "access_token" = Some a ->
  token_requests (log (net (snd (snd
    (Api.request py_str E method resource_path region kwargs (cache, s))))))
  = token_requests (log (net s))
  /\ token (self (snd (snd
       (Api.request py_str E method resource_path region kwargs (cache, s)))))
     = t.
Proof.
  intros Hv Hf He Hle Hhit Ha.
  unfold Api.request. rewrite Hv. cbn [negb]. unfold bind.
  rewrite (authenticate_expiring_hit py_str E region cache s expires_at t a) by done.
  rewrite dispatch_run. cbn zeta.
  destruct (resource E _) as [|status body]; [state; done|].
  destruct ((400 <=? status) && (status <? 600)).
  - destruct (status =? 401); [|state; done].
    rewrite (retry_hit py_str E _ _ _ _ _ _ t a) by done. state. done.
  - destruct body; state; done.
Qed.

Lemma first_call_fetches_a_token :
  Api.request Scenario.str Scenario.an_hour_later "GET" "/data/x/1" "us" []
    (∅, Scenario.fresh "id" "secret")
  = (Return ∅, Scenario.after_first_call).
Proof. vm_compute. reflexivity. Qed.

Lemma Api_never_refreshes_on_expiry_witness :
  token_requests (log (net (snd (snd
    (Api.request Scenario.str Scenario.an_hour_later "GET" "/data/x/1" "us" []
       (fst Scenario.after_first_call, snd Scenario.after_first_call))))))
  = token_requests (log (net (snd Scenario.after_first_call)))
  /\ token (self (snd (snd
       (Api.request Scenario.str Scenario.an_hour_later "GET" "/data/x/1" "us" []
          (fst Scenario.after_first_call, snd Scenario.after_first_call)))))
     = Scenario.stamped "T0" 3600 0.
Proof.
  apply (Api_never_refreshes_on_expiry Scenario.str Scenario.an_hour_later
           "GET" "/data/x/1" "us" []
           (fst Scenario.after_first_call) (snd Scenario.after_first_call)
           3600 (Scenario.stamped "T0" 3600 0) (PStr "T0"));
    vm_compute; (reflexivity || discriminate).
Defined.

(** ** The token request behind [method_cache] *)

Section ApiQuiet.

Context (py_str : pyobj -> string) (E : env).

(** Reading the clock and the token writes nothing to the log. *)
Lemma token_missing_or_expiring_quiet s :
  log (net (snd (Api.token_missing_or_expiring E s))) = log (net s).
Proof.
  unfold Api.token_missing_or_expiring, get_token, py_time, bind, ret, raise.
  destruct (falsy (token (self s))); [done|].
  by destruct (default (PNum 0) (token (self s) !! "expires_at")).
Qed.

Lemma bearer_quiet s : snd (Api.bearer py_str s) = s.
Proof.
  unfold Api.bearer, get_token, getitem, bind, ret, raise.
  by destruct (token (self s) !! "access_token").
Qed.

(** With the region in the table, the authenticate step leaves the table
    as it is and requests no token. *)
Lemma authenticate_hit_quiet region cache s t :
  cache !! cache_key py_str ApiPy [PStr region] [] = Some t ->
  fst (snd (Api.authenticate py_str E region (cache, s))) = cache
  /\ token_requests (log (net (snd (snd (Api.authenticate py_str E region (cache, s))))))
     = token_requests (log (net s)).
Proof.
  intros Hhit. unfold Api.authenticate, bind, lift.
  pose proof (token_missing_or_expiring_quiet s) as Hlog.
  destruct (Api.token_missing_or_expiring E s) as [[[|]|e] s1]; cbn [snd] in Hlog.
  - rewrite (get_client_credentials_token_hit py_str E region cache s1 t) by done.
    unfold assign_token, write_token, emit, bind.
    pose proof (bearer_quiet (record [AssignToken t] (install t s1))) as Hb.
    destruct (Api.bearer py_str _) as [r s2]. cbn [snd] in Hb. subst s2.
    destruct r; state; by rewrite Hlog.
  - unfold ret. pose proof (bearer_quiet s1) as Hb.
    destruct (Api.bearer py_str s1) as [r s2]. cbn [snd] in Hb. subst s2.
    destruct r; state; by rewrite Hlog.
  - state. by rewrite Hlog.
Qed.

Lemma retry_hit_quiet method url region kwargs cache s t :
  cache !! cache_key py_str ApiPy [PStr region] [] = Some t ->
  fst (snd (Api.retry py_str E method url region kwargs (cache, s))) = cache
  /\ token_requests (log (net (snd (snd
       (Api.retry py_str E method url region kwargs (cache, s))))))
     = token_requests (log (net s)).
Proof.
  intros Hhit. unfold Api.retry, bind.
  rewrite (get_client_credentials_token_hit py_str E region cache s t) by done.
  unfold lift, assign_token, write_token, emit, bind.
  pose proof (bearer_quiet (record [AssignToken t] (install t s))) as Hb.
  destruct (Api.bearer py_str _) as [r s2]. cbn [snd] in Hb. subst s2.
  destruct r as [a|e]; [|state; done].
  rewrite send_run. state. done.
Qed.

Lemma dispatch_hit_quiet method url region kwargs authorization cache s t :
  cache !! cache_key py_str ApiPy [PStr region] [] = Some t ->
  fst (snd (Api.dispatch py_str E method url region kwargs authorization (cache, s)))
  = cache
  /\ token_requests (log (net (snd (snd
       (Api.dispatch py_str E method url region kwargs authorization (cache, s))))))
     = token_requests (log (net s)).
Proof.
  intros Hhit. rewrite dispatch_run. cbn zeta.
  destruct (resource E (sends (log (net s)))) as [|status body]; [state; done|].
  destruct ((400 <=? status) && (status <? 600)).
  - destruct (status =? 401); [|state; done].
    destruct (retry_hit_quiet method url region kwargs cache
                (record [ResourceRequest method url kwargs authorization] s) t Hhit)
      as [Hc Hn].
    split; [done|]. rewrite Hn. state. done.
  - destruct body; state; done.
Qed.

(** Once the region is in the table, no call of [request] for the region
    requests a token, whatever the token of the client and whatever the
    servers answer. *)
Lemma request_hit_quiet method resource_path region kwargs cache s t :
  cache !! cache_key py_str ApiPy [PStr region] [] = Some t ->
  fst (snd (Api.request py_str E method resource_path region kwargs (cache, s))) = cache
  /\ token_requests (log (net (snd (snd
       (Api.request py_str E method resource_path region kwargs (cache, s))))))
     = token_requests (log (net s)).
Proof.
  intros Hhit. unfold Api.request.
  destruct (negb (valid_region region)); [done|]. unfold bind.
  destruct (authenticate_hit_quiet region cache s t Hhit) as [Hc Hn].
  destruct (Api.authenticate py_str E region (cache, s)) as [[a|e] [c1 s1]];
    cbn [fst snd] in Hc, Hn; subst c1; [|done].
  destruct (dispatch_hit_quiet method (_format_url resource_path region) region kwargs
              a cache s1 t Hhit) as [Hc' Hn'].
  split; [done|]. by rewrite Hn'.
Qed.

Lemma get_client_credentials_token_func_keyword region s :
  Api.get_client_credentials_token_func E [] [("region", PStr region)] s
  = Api.get_client_credentials_token_func E [PStr region] [] s.
Proof. reflexivity. Qed.

End ApiQuiet.

(** C10 fails as stated, in two ways.  While the authorization server
    rejects the client, nothing is stored, and every call for the region
    issues another token request.  And the table is keyed by the
    arguments as they are passed: after a call with the region by
    position has been granted the token T0, a call with the region by
    keyword issues a second token request and returns the token T1. *)
Lemma rejected_token_requests_repeat :
  token_requests (log (net (snd (snd
    (Api.get_client_credentials_token Scenario.str Scenario.rejecting [PStr "us"] []
       (snd (Api.get_client_credentials_token Scenario.str Scenario.rejecting
               [PStr "us"] [] (∅, Scenario.fresh "id" "secret"))))))))
  = 2%nat
  /\ fst (Api.get_client_credentials_token Scenario.str Scenario.unauthorized
            [PStr "us"] [] (∅, Scenario.fresh "id" "secret"))
     = Return (Scenario.stamped "T0" 3600 0)
  /\ fst (Api.get_client_credentials_token Scenario.str Scenario.unauthorized
            [] [("region", PStr "us")]
            (snd (Api.get_client_credentials_token Scenario.str Scenario.unauthorized
                    [PStr "us"] [] (∅, Scenario.fresh "id" "secret"))))
     = Return (Scenario.stamped "T1" 3600 0)
  /\ token_requests (log (net (snd (snd
       (Api.get_client_credentials_token Scenario.str Scenario.unauthorized
          [] [("region", PStr "us")]
          (snd (Api.get_client_credentials_token Scenario.str Scenario.unauthorized
                  [PStr "us"] [] (∅, Scenario.fresh "id" "secret"))))))))
     = 2%nat.
Proof. repeat split; vm_compute; reflexivity. Qed.

(** C10, as amended.  In the blocking client, for every region.  A call
    of [get_client_credentials_token] with the region by position that
    finds its key in the table returns the stored token and changes
    nothing.  [request] always passes the region by position: once the
    key is in the table, a call of [request] for the region issues no
    token request and leaves the table as it is, whatever the token of
    the client and whatever the servers answer; the refresh before the
    retry on a 401 installs the stored token again.  A call that does not
    find its key issues one token request and stores the token only if it
    is granted.  A call with the region by keyword has another key: when
    that key is not in the table it issues a token request of its own and
    returns the token granted to it, also when the region is in the table
    under the key of the calls by position. *)
Theorem token_request_at_most_once_granted
    (py_str : pyobj -> string) (E : env) (region : string)
    (cache : gmap string (gmap string pyobj)) (s : st) :
  (forall t,
     cache !! cache_key py_str ApiPy [PStr region] [] = Some t ->
     Api.get_client_credentials_token py_str E [PStr region] [] (cache, s)
     = (Return t, (cache, s)))
  /\ (forall t method resource_path kwargs,
        cache !! cache_key py_str ApiPy [PStr region] [] = Some t ->
        fst (snd (Api.request py_str E method resource_path region kwargs (cache, s)))
        = cache
        /\ token_requests (log (net (snd (snd
             (Api.request py_str E method resource_path region kwargs (cache, s))))))
           = token_requests (log (net s)))
  /\ (forall t a method url kwargs,
        cache !! cache_key py_str ApiPy [PStr region] [] = Some t ->
        t !! "access_token" = Some a ->
        fst (snd (Api.retry py_str E method url region kwargs (cache, s))) = cache
        /\ token_requests (log (net (snd (snd
             (Api.retry py_str E method url region kwargs (cache, s))))))
           = token_requests (log (net s))
        /\ token (self (snd (snd
             (Api.retry py_str E method url region kwargs (cache, s))))) = t)
  /\ (cache !! cache_key py_str ApiPy [PStr region] [] = None ->
      token_requests (log (net (snd (snd
        (Api.get_client_credentials_token py_str E [PStr region] [] (cache, s))))))
      = S (token_requests (log (net s)))
      /\ fst (snd (Api.get_client_credentials_token py_str E [PStr region] [] (cache, s)))
         = match fetch_token E (token_requests (log (net s))) with
           | Fetched t =>
               match t !! "access_token" with
               | Some _ => <[cache_key py_str ApiPy [PStr region] [] := t]> cache
               | None => cache
               end
           | _ => cache
           end)
  /\ (cache_key Scenario.str ApiPy [] [("region", PStr region)]
      <> cache_key Scenario.str ApiPy [PStr region] []
      /\ (cache !! cache_key Scenario.str ApiPy [] [("region", PStr region)] = None ->
          token_requests (log (net (snd (snd
            (Api.get_client_credentials_token Scenario.str E
               [] [("region", PStr region)] (cache, s))))))
          = S (token_requests (log (net s)))
          /\ (forall t a,
                fetch_token E (token_requests (log (net s))) = Fetched t ->
                t !! "access_token" = Some a ->
                fst (Api.get_client_credentials_token Scenario.str E
                       [] [("region", PStr region)] (cache, s))
                = Return t))).
Proof.
  split; [|split; [|split; [|split]]].
  - intros t Hhit. by apply get_client_credentials_token_hit.
  - intros t method resource_path kwargs Hhit. by apply (request_hit_quiet _ _ _ _ _ _ _ _ t).
  - intros t a method url kwargs Hhit Ha.
    rewrite (retry_hit py_str E method url region kwargs cache s t a) by done.
    state. done.
  - intros Hmiss. rewrite get_client_credentials_token_miss by done.
    destruct (fetch_token E (token_requests (log (net s)))) as [t| |];
      [destruct (t !! "access_token")| |]; state; done.
  - split; [apply positional_key_ne_keyword_key|].
    intros Hmiss. unfold Api.get_client_credentials_token, method_cache.
    rewrite Hmiss, get_client_credentials_token_func_keyword,
      get_client_credentials_token_func_run.
    split.
    + destruct (fetch_token E (token_requests (log (net s)))) as [t| |];
        [destruct (t !! "access_token")| |]; state; done.
    + intros t a -> ->. done.
Qed.

Lemma token_request_at_most_once_granted_witness :
  Api.get_client_credentials_token Scenario.str Scenario.unauthorized [PStr "us"] []
    Scenario.after_first_call
  = (Return (Scenario.stamped "T0" 3600 0), Scenario.after_first_call)
  /\ token_requests (log (net (snd (snd
       (Api.request Scenario.str Scenario.unauthorized "GET" "/data/x/1" "us" []
          Scenario.after_first_call)))))
     = token_requests (log (net (snd Scenario.after_first_call)))
  /\ token_requests (log (net (snd (snd
       (Api.retry Scenario.str Scenario.unauthorized "GET" "/data/x/1" "us" []
          Scenario.after_first_call)))))
     = token_requests (log (net (snd Scenario.after_first_call)))
  /\ token_requests (log (net (snd (snd
       (Api.get_client_credentials_token Scenario.str Scenario.unauthorized
          [PStr "us"] [] (∅, Scenario.fresh "id" "secret"))))))
     = 1%nat
  /\ fst (Api.get_client_credentials_token Scenario.str Scenario.unauthorized
            [] [("region", PStr "us")] Scenario.after_first_call)
     = Return (Scenario.stamped "T1" 3600 0).
Proof.
  destruct (token_request_at_most_once_granted Scenario.str Scenario.unauthorized "us"
              (fst Scenario.after_first_call) (snd Scenario.after_first_call))
    as (Hhit & Hrequest & Hretry & _ & _ & Hkeyword).
  destruct (token_request_at_most_once_granted Scenario.str Scenario.unauthorized "us"
              ∅ (Scenario.fresh "id" "secret")) as (_ & _ & _ & Hmiss & _).
  split; [|split; [|split; [|split]]].
  - apply (Hhit (Scenario.stamped "T0" 3600 0)). apply lookup_insert_eq.
  - apply (Hrequest (Scenario.stamped "T0" 3600 0) "GET" "/data/x/1" []).
    apply lookup_insert_eq.
  - apply (Hretry (Scenario.stamped "T0" 3600 0) (PStr "T0") "GET" "/data/x/1" []);
      [apply lookup_insert_eq | vm_compute; reflexivity].
  - apply (Hmiss (lookup_empty _)).
  - destruct Hkeyword as [_ Hgranted]; [vm_compute; reflexivity|].
    apply (Hgranted (Scenario.stamped "T1" 3600 0) (PStr "T1"));
      vm_compute; reflexivity.
Defined.

(** ** How the token is written *)

Section Emits.

Context {St : Type} `{Logged St} (P : event -> Prop).

Lemma emits_ret {A} (a : A) : emits P (ret (St := St) a).
Proof. intros s. exists []. by rewrite app_nil_r. Qed.

Lemma emits_raise {A} (e : exn) : emits P (raise (St := St) (A := A) e).
Proof. intros s. exists []. by rewrite app_nil_r. Qed.

Lemma emits_bind {A B} (m : M St A) (k : A -> M St B) :
  emits P m -> (forall a, emits P (k a)) -> emits P (bind m k).
Proof.
  intros Hm Hk s. unfold bind. destruct (Hm s) as (new1 & E1 & F1).
  destruct (m s) as [[a|e] s1]; cbn [snd] in *.
  - destruct (Hk a s1) as (new2 & E2 & F2).
    exists (new1 ++ new2)%list. rewrite E2, E1, app_assoc.
    split; [done|]. by apply Forall_app.
  - by exists new1.
Qed.

Lemma emits_try {A} (m : M St A) (h : exn -> M St A) :
  emits P m -> (forall e, emits P (h e)) -> emits P (try m h).
Proof.
  intros Hm Hh s. unfold try. destruct (Hm s) as (new1 & E1 & F1).
  destruct (m s) as [[a|e] s1]; cbn [snd] in *.
  - by exists new1.
  - destruct (Hh e s1) as (new2 & E2 & F2).
    exists (new1 ++ new2)%list. rewrite E2, E1, app_assoc.
    split; [done|]. by apply Forall_app.
Qed.

Lemma emits_lift {C A} (m : M St A) : emits P m -> emits P (lift (C := C) m).
Proof.
  intros Hm [c s]. unfold lift. destruct (Hm s) as (new & E1 & F1).
  destruct (m s) as [r s1]. by exists new.
Qed.

Lemma emits_method_cache {V} py_str d
    (func : list pyobj -> list (string * pyobj) -> M St V) args kwargs :
  emits P (func args kwargs) -> emits P (method_cache py_str d func args kwargs).
Proof.
  intros Hf [cache s]. unfold method_cache.
  destruct (cache !! cache_key py_str d args kwargs).
  - exists []. by rewrite app_nil_r.
  - destruct (Hf s) as (new & E1 & F1).
    destruct (func args kwargs s) as [[v|e] s1]; by exists new.
Qed.

End Emits.

Section EmitsPrimitives.

Context (P : event -> Prop).

Lemma emits_emit e : P e -> emits P (emit e).
Proof. intros He s. exists [e]. split; [done|]. by apply Forall_singleton. Qed.

Lemma emits_py_time E : emits P (py_time E).
Proof. intros s. exists []. by rewrite app_nil_r. Qed.

Lemma emits_get_token : emits P get_token.
Proof. intros s. exists []. by rewrite app_nil_r. Qed.

Lemma emits_write_token t : emits P (write_token t).
Proof. intros s. exists []. by rewrite app_nil_r. Qed.

Lemma emits_getitem {St} `{Logged St} d key : emits P (getitem (St := St) d key).
Proof. unfold getitem. destruct (d !! key); [apply emits_ret | apply emits_raise]. Qed.

Lemma emits_response_json {St} `{Logged St} body :
  emits P (Api.response_json (St := St) body).
Proof. intros s. exists []. rewrite app_nil_r. by destruct body. Qed.

Lemma emits_json_of {St} `{Logged St} body : emits P (json_of (St := St) body).
Proof. unfold json_of. destruct body; [apply emits_ret | apply emits_raise]. Qed.

Lemma emits_assign_token t : P (AssignToken t) -> emits P (assign_token t).
Proof.
  intros Ht. unfold assign_token.
  apply emits_bind; [apply emits_write_token | intros _; by apply emits_emit].
Qed.

Lemma emits_set_token_item key v :
  P (SetTokenItem key v) -> emits P (set_token_item key v).
Proof.
  intros Hk. unfold set_token_item.
  apply emits_bind; [apply emits_get_token | intros t].
  apply emits_bind; [apply emits_write_token | intros _; by apply emits_emit].
Qed.

Lemma emits_session_request E method url kwargs authorization :
  P (ResourceRequest method url kwargs authorization) ->
  emits P (session_request E method url kwargs authorization).
Proof.
  intros Hr s. exists [ResourceRequest method url kwargs authorization].
  split; [done|]. by apply Forall_singleton.
Qed.

End EmitsPrimitives.

(** Take a function of the embedding apart along its control structure. *)
#[local] Ltac emits_step :=
  first
    [ apply emits_ret | apply emits_raise
    | apply emits_py_time | apply emits_get_token | apply emits_write_token
    | apply emits_getitem | apply emits_json_of | apply emits_response_json
    | apply emits_assign_token; done
    | apply emits_set_token_item; done
    | apply emits_session_request; done
    | apply emits_emit; done
    | apply emits_lift
    | apply emits_method_cache
    | apply emits_bind; [|intros ?]
    | apply emits_try; [|intros ?]
    | match goal with
      | |- emits _ (match ?x with _ => _ end) => destruct x
      end ].

#[local] Ltac emits_all := cbn zeta; repeat emits_step.

Section WritesOfTheBlockingClient.

Context (py_str : pyobj -> string) (E : env).





Lemma emits_Api_bearer : emits wholesale (Api.bearer py_str).
Proof. unfold Api.bearer. emits_all. Qed.

Lemma emits_Api_send method url kwargs authorization :
  emits wholesale (Api.send E method url kwargs authorization).
Proof. unfold Api.send, Api.session_request, Api.raise_for_status. emits_all. Qed.



End WritesOfTheBlockingClient.

Section WritesOfTheCooperativeClient.

Context (py_str : pyobj -> string) (E : env).

Lemma emits_session_post url : emits stamps_expiry_only (AsyncApi.session_post E url).
Proof.
  intros s. exists [TokenRequest url (client_id (self s)) (client_secret (self s))].
  split; [|by apply Forall_singleton].
  unfold AsyncApi.session_post.
  by destruct (post_token E (token_requests (log (net s)))).
Qed.

Lemma emits_AsyncApi_raise_for_status {St} `{Logged St} status :
  emits stamps_expiry_only (AsyncApi.raise_for_status (St := St) status).
Proof. unfold AsyncApi.raise_for_status. emits_all. Qed.

Lemma emits_add_to_time {St} `{Logged St} now x :
  emits stamps_expiry_only (AsyncApi.add_to_time (St := St) now x).
Proof. unfold AsyncApi.add_to_time. emits_all. Qed.

Lemma emits_AsyncApi_refresh_token region :
  emits stamps_expiry_only (AsyncApi._refresh_token E region).
Proof.
  unfold AsyncApi._refresh_token.
  emits_all;
    first [ apply emits_session_post
          | apply emits_AsyncApi_raise_for_status
          | apply emits_add_to_time ].
Qed.


End WritesOfTheCooperativeClient.




(** * Further properties *)

(** ** URLs *)

(** X1.  For the regions of the fixed set, [_format_url] is injective:
    two calls give the same URL only for the same resource and the same
    region. *)
Theorem format_url_injective (resource1 region1 resource2 region2 : string) :
  region1 ∈ regions -> region2 ∈ regions ->
  _format_url resource1 region1 = _format_url resource2 region2 ->
  resource1 = resource2 /\ region1 = region2.
Proof.
  unfold regions. intros H1 H2.
  repeat (apply elem_of_cons in H1 as [->|H1]);
    try (by apply elem_of_nil in H1);
    repeat (apply elem_of_cons in H2 as [->|H2]);
    try (by apply elem_of_nil in H2);
    cbn; intros H; by simplify_eq.
Qed.

Lemma format_url_injective_witness :
  "/data/wow/token/index" = "/data/wow/token/index" /\ "eu" = "eu".
Proof.
  apply (format_url_injective "/data/wow/token/index" "eu" "/data/wow/token/index" "eu");
    [unfold regions; set_solver | unfold regions; set_solver | reflexivity].
Defined.

(** ** The first send *)

(** Whatever the authenticate step raises leaves [request] as it is,
    in both clients, and nothing is sent after it. *)
Theorem authenticate_errors_escape
    (py_str : pyobj -> string) (E : env) (method resource_path region : string)
    (kwargs : list (string * pyobj)) (e : exn) :
  valid_region region = true ->
  (forall cache s cache1 s1,
     Api.authenticate py_str E region (cache, s) = (Raise e, (cache1, s1)) ->
     Api.request py_str E method resource_path region kwargs (cache, s)
     = (Raise e, (cache1, s1)))
  /\ (forall s s1,
        AsyncApi.authenticate py_str E region s = (Raise e, s1) ->
        AsyncApi.request py_str E method resource_path region kwargs s = (Raise e, s1)).
Proof.
  intros Hv. split.
  - intros cache s cache1 s1 Hauth.
    unfold Api.request. rewrite Hv. cbn [negb]. unfold bind. by rewrite Hauth.
  - intros s s1 Hauth.
    unfold AsyncApi.request. rewrite Hv. cbn [negb]. unfold bind. by rewrite Hauth.
Qed.

Lemma authenticate_errors_escape_witness :
  Api.request Scenario.str Scenario.unreachable "GET" "/data/x/1" "us" []
    (∅, Scenario.fresh "id" "secret")
  = (Raise RequestException,
     (∅, record [token_request_of "us" (Scenario.fresh "id" "secret")]
           (Scenario.fresh "id" "secret")))
  /\ AsyncApi.request Scenario.str Scenario.unreachable "GET" "/data/x/1" "us" []
       (Scenario.fresh "id" "secret")
     = (Raise ClientError,
        record [token_post_of "us" (tick (Scenario.fresh "id" "secret"))]
          (tick (Scenario.fresh "id" "secret"))).
Proof.
  destruct (authenticate_errors_escape Scenario.str Scenario.unreachable
              "GET" "/data/x/1" "us" [] RequestException eq_refl) as [Hsync _].
  destruct (authenticate_errors_escape Scenario.str Scenario.unreachable
              "GET" "/data/x/1" "us" [] ClientError eq_refl) as [_ Hasync].
  split; [apply Hsync | apply Hasync]; vm_compute; reflexivity.
Defined.

(** X2.  The answers to the first send that are not HTTP errors, in both
    clients: no response at all is [ApiConnectionError]; a status on which
    [raise_for_status] does not raise, with a document as body, returns
    the document; with a body that does not decode, the cooperative client
    raises [InvalidResponseError], and the blocking client raises
    [ApiConnectionError], because the [JSONDecodeError] of requests is a
    [RequestException] and that clause comes first.  In each case the
    state is the one after authentication with the one send recorded: no
    retry and no token request. *)
Theorem first_send_outcomes
    (py_str : pyobj -> string) (E : env) (method resource_path region : string)
    (kwargs : list (string * pyobj)) :
  valid_region region = true ->
  (forall cache s authorization cache1 s1,
     Api.authenticate py_str E region (cache, s)
     = (Return authorization, (cache1, s1)) ->
     (resource E (sends (log (net s1))) = NoResponse ->
      Api.request py_str E method resource_path region kwargs (cache, s)
      = (Raise ApiConnectionError,
         (cache1,
          record [ResourceRequest method (_format_url resource_path region) kwargs
                    authorization] s1)))
     /\ (forall status body,
           resource E (sends (log (net s1))) = Response status body ->
           ~ 400 <= status < 600 ->
           Api.request py_str E method resource_path region kwargs (cache, s)
           = (match body with
              | Some d => Return d
              | None => Raise ApiConnectionError
              end,
              (cache1,
               record [ResourceRequest method (_format_url resource_path region) kwargs
                         authorization] s1))))
  /\ (forall s authorization s1,
        AsyncApi.authenticate py_str E region s = (Return authorization, s1) ->
        (resource E (sends (log (net s1))) = NoResponse ->
         AsyncApi.request py_str E method resource_path region kwargs s
         = (Raise ApiConnectionError,
            record [ResourceRequest method (_format_url resource_path region) kwargs
                      authorization] s1))
        /\ (forall status body,
              resource E (sends (log (net s1))) = Response status body ->
              status < 400 ->
              AsyncApi.request py_str E method resource_path region kwargs s
              = (match body with
                 | Some d => Return d
                 | None => Raise InvalidResponseError
                 end,
                 record [ResourceRequest method (_format_url resource_path region) kwargs
                           authorization] s1))).
Proof.
  intros Hv. split.
  - intros cache s authorization cache1 s1 Hauth.
    assert (Api.request py_str E method resource_path region kwargs (cache, s)
            = Api.dispatch py_str E method (_format_url resource_path region) region
                kwargs authorization (cache1, s1)) as ->.
    { unfold Api.request. rewrite Hv. cbn [negb]. unfold bind. by rewrite Hauth. }
    rewrite dispatch_run. cbn zeta. split.
    + by intros ->.
    + intros status body -> Hrange.
      replace ((400 <=? status) && (status <? 600)) with false by lia.
      by destruct body.
  - intros s authorization s1 Hauth.
    assert (AsyncApi.request py_str E method resource_path region kwargs s
            = AsyncApi.dispatch py_str E method (_format_url resource_path region) region
                kwargs authorization s1) as ->.
    { unfold AsyncApi.request. rewrite Hv. cbn [negb]. unfold bind. by rewrite Hauth. }
    rewrite async_dispatch_run. cbn zeta. split.
    + by intros ->.
    + intros status body -> Hrange.
      replace (status =? 401) with false by lia.
      replace (400 <=? status) with false by lia.
      by destruct body.
Qed.

Lemma first_send_outcomes_witness :
  fst (Api.request Scenario.str (Scenario.server 200 None 0 (fun _ => 0))
         "GET" "/data/x/1" "us" [] (∅, Scenario.signed_in))
  = Raise ApiConnectionError
  /\ fst (AsyncApi.request Scenario.str (Scenario.server 200 None 0 (fun _ => 0))
            "GET" "/data/x/1" "us" [] Scenario.signed_in)
     = Raise InvalidResponseError
  /\ fst (AsyncApi.request Scenario.str (Scenario.server 200 (Some ∅) 0 (fun _ => 0))
            "GET" "/data/x/1" "us" [] Scenario.signed_in)
     = Return ∅.
Proof.
  destruct (first_send_outcomes Scenario.str (Scenario.server 200 None 0 (fun _ => 0))
              "GET" "/data/x/1" "us" [] eq_refl) as [Hsync Hasync0].
  destruct (first_send_outcomes Scenario.str (Scenario.server 200 (Some ∅) 0 (fun _ => 0))
              "GET" "/data/x/1" "us" [] eq_refl) as [_ Hasync].
  split; [|split].
  - destruct (Hsync ∅ Scenario.signed_in "Bearer T0" ∅ (tick Scenario.signed_in))
      as [_ Hresp]; [vm_compute; reflexivity|].
    rewrite (Hresp 200 None); [reflexivity | reflexivity | lia].
  - destruct (Hasync0 Scenario.signed_in "Bearer T0" (tick Scenario.signed_in))
      as [_ Hresp]; [vm_compute; reflexivity|].
    rewrite (Hresp 200 None); [reflexivity | reflexivity | lia].
  - destruct (Hasync Scenario.signed_in "Bearer T0" (tick Scenario.signed_in))
      as [_ Hresp]; [vm_compute; reflexivity|].
    rewrite (Hresp 200 (Some ∅)); [reflexivity | reflexivity | lia].
Defined.

(** ** Token requests that fail *)

(** X3.  A token request that is not granted changes nothing but the log:
    the token of the client, and in the blocking client the table of
    [get_client_credentials_token], are as before, and the one token
    request is recorded.  This holds for [get_client_credentials_token]
    and [_refresh_token] of the blocking client, and for [_refresh_token]
    of the cooperative client when there is no response, when the status
    is 400 or more, and when the body does not decode. *)
Theorem failed_token_request_changes_nothing
    (py_str : pyobj -> string) (E : env) (region : string)
    (cache : gmap string (gmap string pyobj)) (s : st) :
  (cache !! cache_key py_str ApiPy [PStr region] [] = None ->
   (forall t, fetch_token E (token_requests (log (net s))) <> Fetched t) ->
   snd (Api.get_client_credentials_token py_str E [PStr region] [] (cache, s))
   = (cache, record [token_request_of region s] s))
  /\ ((forall t, fetch_token E (token_requests (log (net s))) <> Fetched t) ->
      snd (Api._refresh_token E region s)
      = record [TokenRequest
                  (if String.eqb region "cn" then Api.oauth_url_cn else Api.oauth_url)
                  (client_id (self s)) (client_secret (self s))] s)
  /\ ((forall status t,
         post_token E (token_requests (log (net s))) = Response status (Some t) ->
         400 <= status) ->
      snd (AsyncApi._refresh_token E region s) = record [token_post_of region s] s).
Proof.
  split; [|split].
  - intros Hmiss Hno. rewrite get_client_credentials_token_miss by done.
    destruct (fetch_token E (token_requests (log (net s)))) as [t| |]; [|done..].
    by destruct (Hno t).
  - intros Hno.
    unfold Api._refresh_token, Api.session_fetch_token, assign_token, write_token,
      emit, try, bind, raise.
    destruct (fetch_token E (token_requests (log (net s)))) as [t| |]; [|done..].
    by destruct (Hno t).
  - intros Hno. rewrite _refresh_token_run. cbn zeta.
    destruct (post_token E (token_requests (log (net s)))) as [|status body]; [done|].
    destruct (400 <=? status) eqn:Hs; [done|].
    destruct body as [t|]; [|done].
    specialize (Hno status t eq_refl). lia.
Qed.

Lemma failed_token_request_changes_nothing_witness :
  snd (Api.get_client_credentials_token Scenario.str Scenario.rejecting [PStr "us"] []
         (∅, Scenario.signed_in))
  = (∅, record [token_request_of "us" Scenario.signed_in] Scenario.signed_in)
  /\ snd (Api._refresh_token Scenario.unreachable "us" Scenario.signed_in)
     = record [TokenRequest Api.oauth_url "id" "secret"] Scenario.signed_in
  /\ snd (AsyncApi._refresh_token Scenario.rejecting "us" Scenario.signed_in)
     = record [token_post_of "us" Scenario.signed_in] Scenario.signed_in.
Proof.
  destruct (failed_token_request_changes_nothing Scenario.str Scenario.rejecting "us" ∅
              Scenario.signed_in) as (Hget & _ & Hasync).
  destruct (failed_token_request_changes_nothing Scenario.str Scenario.unreachable "us" ∅
              Scenario.signed_in) as (_ & Hrefresh & _).
  split; [|split].
  - apply Hget; [apply lookup_empty | discriminate].
  - apply Hrefresh. discriminate.
  - apply Hasync. intros status t H. injection H as <- _. lia.
Defined.

(** Every call of [_refresh_token] of the cooperative client issues
    exactly one token request. *)
Lemma AsyncApi_refresh_token_requests_once (E : env) (region : string) (s : st) :
  token_requests (log (net (snd (AsyncApi._refresh_token E region s))))
  = S (token_requests (log (net s))).
Proof.
  rewrite _refresh_token_run. cbn zeta.
  destruct (post_token E (token_requests (log (net s)))) as [|status body];
    [state; done|].
  destruct (400 <=? status); [state; done|].
  destruct body as [t|]; [|state; done].
  destruct (t !! "expires_in") as [[]|]; state; done.
Qed.

(** X4.  When the document of the authorization server has no
    [expires_in], [_refresh_token] of the cooperative client raises
    [KeyError] after it has installed the document, so that the token is
    left without [expires_at]; the next call then finds it expiring and
    issues a token request again. *)
Theorem AsyncApi_refresh_without_expires_in
    (py_str : pyobj -> string) (E : env) (region : string) (s : st)
    (status : Z) (t : gmap string pyobj) :
  post_token E (token_requests (log (net s))) = Response status (Some t) ->
  status < 400 ->
  t !! "expires_in" = None ->
  AsyncApi._refresh_token E region s
  = (Raise (KeyError "expires_in"),
     tick (record [AssignToken t] (install t (record [token_post_of region s] s))))
  /\ (t !! "expires_at" = None ->
      0 <= time E (S (ticks (net s))) + 60 ->
      token_requests (log (net (snd
        (AsyncApi.authenticate py_str E region
           (snd (AsyncApi._refresh_token E region s))))))
      = S (S (token_requests (log (net s))))).
Proof.
  intros Hp Hs Hn.
  assert (AsyncApi._refresh_token E region s
          = (Raise (KeyError "expires_in"),
             tick (record [AssignToken t] (install t (record [token_post_of region s] s)))))
    as Hrun.
  { rewrite _refresh_token_run, Hp. cbn zeta.
    replace (400 <=? status) with false by lia. by rewrite Hn. }
  split; [done|]. intros He Hnow. rewrite Hrun. cbn [snd].
  set (s' := tick (record [AssignToken t] (install t (record [token_post_of region s] s)))).
  assert (AsyncApi.token_missing_or_expiring (time E (ticks (net s'))) (tick s')
          = (Return true, tick s')) as Hexp.
  { unfold AsyncApi.token_missing_or_expiring, get_token, bind, ret.
    subst s'. state. destruct (falsy t); [done|]. rewrite He. cbn [default].
    by replace (0 <=? time E (S (ticks (net s))) + 60) with true by lia. }
  unfold AsyncApi.authenticate, py_time, bind. rewrite Hexp.
  pose proof (AsyncApi_refresh_token_requests_once E region (tick s')) as Hone.
  destruct (AsyncApi._refresh_token E region (tick s')) as [[[]|e] s2]; cbn [snd] in Hone.
  - unfold AsyncApi.bearer, get_token, getitem, bind, ret, raise.
    destruct (token (self s2) !! "access_token"); cbn [snd]; rewrite Hone;
      subst s'; state; done.
  - cbn [snd]. rewrite Hone. subst s'. state. done.
Qed.

Lemma AsyncApi_refresh_without_expires_in_witness :
  AsyncApi._refresh_token Fixtures.no_expires_in "us" (Scenario.fresh "id" "secret")
  = (Raise (KeyError "expires_in"),
     tick (record [AssignToken {[ "access_token" := PStr "T" ]}]
             (install {[ "access_token" := PStr "T" ]}
                (record [token_post_of "us" (Scenario.fresh "id" "secret")]
                   (Scenario.fresh "id" "secret")))))
  /\ token_requests (log (net (snd
       (AsyncApi.authenticate Scenario.str Fixtures.no_expires_in "us"
          (snd (AsyncApi._refresh_token Fixtures.no_expires_in "us"
                  (Scenario.fresh "id" "secret")))))))
     = S (S (token_requests (log (net (Scenario.fresh "id" "secret"))))).
Proof.
  destruct (AsyncApi_refresh_without_expires_in Scenario.str Fixtures.no_expires_in "us"
              (Scenario.fresh "id" "secret") 200 {[ "access_token" := PStr "T" ]})
    as [Hrun Hnext]; [reflexivity | lia | vm_compute; reflexivity |].
  split; [exact Hrun|]. apply Hnext; [vm_compute; reflexivity | vm_compute; discriminate].
Defined.

(** ** The retry of the cooperative client *)

(** X5.  In the cooperative client the token request of the retry runs
    inside the [try] statement, so that its failures are classified by
    [request]: no response is [ApiConnectionError], a body that does not
    decode is [InvalidResponseError], a status of 400 or more is
    [AuthenticationError] wrapping it.  In each case there is no second
    send. *)
Theorem AsyncApi_refresh_failure_in_retry
    (py_str : pyobj -> string) (E : env) (method url region : string)
    (kwargs : list (string * pyobj)) (authorization : string) (s : st)
    (b : option (gmap string pyobj)) :
  resource E (sends (log (net s))) = Response 401 b ->
  (post_token E (token_requests (log (net s))) = NoResponse ->
   AsyncApi.dispatch py_str E method url region kwargs authorization s
   = (Raise ApiConnectionError,
      record [token_post_of region s]
        (record [ResourceRequest method url kwargs authorization] s)))
  /\ (forall status,
        post_token E (token_requests (log (net s))) = Response status None ->
        status < 400 ->
        AsyncApi.dispatch py_str E method url region kwargs authorization s
        = (Raise InvalidResponseError,
           record [token_post_of region s]
             (record [ResourceRequest method url kwargs authorization] s)))
  /\ (forall status body,
        post_token E (token_requests (log (net s))) = Response status body ->
        400 <= status ->
        AsyncApi.dispatch py_str E method url region kwargs authorization s
        = (Raise (AuthenticationError (Some (ClientResponseError status))),
           record [token_post_of region s]
             (record [ResourceRequest method url kwargs authorization] s))).
Proof.
  intros H401.
  assert (forall r, (* the retry, as far as the refresh decides it *)
            AsyncApi._refresh_token E region
              (record [ResourceRequest method url kwargs authorization] s)
            = (Raise r,
               record [token_post_of region s]
                 (record [ResourceRequest method url kwargs authorization] s)) ->
            AsyncApi.dispatch py_str E method url region kwargs authorization s
            = (fst (AsyncApi.on_error (A := gmap string pyobj) r
                      (record [token_post_of region s]
                         (record [ResourceRequest method url kwargs authorization] s))),
               record [token_post_of region s]
                 (record [ResourceRequest method url kwargs authorization] s))) as Hretry.
  { intros r Hr. rewrite async_dispatch_run. cbn zeta. rewrite H401.
    change (401 =? 401) with true. cbn match.
    unfold try, AsyncApi.retry, bind. rewrite Hr.
    unfold AsyncApi.on_error, raise.
    destruct r; try done.
    destruct (status =? 401); [done|]. destruct (status =? 404); [done|].
    by destruct (status =? 429). }
  split; [|split].
  - intros Hp. rewrite (Hretry ClientError); [done|].
    rewrite _refresh_token_run. state. by rewrite Hp.
  - intros status Hp Hs. rewrite (Hretry ValueError); [done|].
    rewrite _refresh_token_run. state. rewrite Hp.
    by replace (400 <=? status) with false by lia.
  - intros status body Hp Hs.
    rewrite (Hretry (AuthenticationError (Some (ClientResponseError status)))); [done|].
    rewrite _refresh_token_run. state. rewrite Hp.
    by replace (400 <=? status) with true by lia.
Qed.

Lemma AsyncApi_refresh_failure_in_retry_witness :
  AsyncApi.dispatch Scenario.str Fixtures.server_goes_away "GET" "/data/x/1" "us" []
    "Bearer T0" (record [token_post_of "us" Scenario.signed_in] Scenario.signed_in)
  = (Raise ApiConnectionError,
     record [token_post_of "us"
               (record [token_post_of "us" Scenario.signed_in] Scenario.signed_in)]
       (record [ResourceRequest "GET" "/data/x/1" [] "Bearer T0"]
          (record [token_post_of "us" Scenario.signed_in] Scenario.signed_in))).
Proof.
  destruct (AsyncApi_refresh_failure_in_retry Scenario.str Fixtures.server_goes_away
              "GET" "/data/x/1" "us" [] "Bearer T0"
              (record [token_post_of "us" Scenario.signed_in] Scenario.signed_in) None
              eq_refl) as [Hnone _].
  apply Hnone. reflexivity.
Defined.

(** X6.  In the cooperative client, after a 401 and a granted refresh,
    the retried send carries the new token, and its answer is classified
    like that of a first send, except that a second 401 is
    [AuthenticationError]: no response is [ApiConnectionError], 404 is
    [ResourceNotFoundError], 429 is [RateLimitError], another status of
    400 or more is the base exception, and below 400 the body is decoded.
    There are two sends and one token request, whatever the answer. *)
Theorem AsyncApi_retried_send_outcomes
    (py_str : pyobj -> string) (E : env) (method url region : string)
    (kwargs : list (string * pyobj)) (authorization : string) (s : st)
    (b : option (gmap string pyobj)) (status : Z) (t : gmap string pyobj) (n : Z)
    (a : pyobj) :
  resource E (sends (log (net s))) = Response 401 b ->
  post_token E (token_requests (log (net s))) = Response status (Some t) ->
  status < 400 ->
  t !! "expires_in" = Some (PNum n) ->
  t !! "access_token" = Some a ->
  AsyncApi.dispatch py_str E method url region kwargs authorization s
  = (match resource E (S (sends (log (net s)))) with
     | NoResponse => Raise ApiConnectionError
     | Response status' body =>
         if 400 <=? status' then
           if status' =? 401 then Raise (AuthenticationError None)
           else Raise (classify_status status')
         else match body with
              | Some d => Return d
              | None => Raise InvalidResponseError
              end
     end,
     record [ResourceRequest method url kwargs ("Bearer " +:+ py_str a)]
       (refreshed E region t n
          (record [ResourceRequest method url kwargs authorization] s))).
Proof.
  intros H401 Hp Hs Hn Ha.
  rewrite async_dispatch_run. cbn zeta. rewrite H401.
  change (401 =? 401) with true. cbn match.
  rewrite (async_retry_granted py_str E method url region kwargs _ status t n a);
    try done.
  - cbn zeta. state. done.
  - state. done.
Qed.

Lemma AsyncApi_retried_send_outcomes_witness :
  fst (AsyncApi.dispatch Scenario.str (Fixtures.unauthorized_once 404 None)
         "GET" "/data/x/1" "us" [] "Bearer T" (Scenario.fresh "id" "secret"))
  = Raise ResourceNotFoundError.
Proof.
  rewrite (AsyncApi_retried_send_outcomes Scenario.str (Fixtures.unauthorized_once 404 None)
             "GET" "/data/x/1" "us" [] "Bearer T" (Scenario.fresh "id" "secret")
             None 200 (Scenario.granted "T0" 3600) 3600 (PStr "T0"));
    [reflexivity | reflexivity | reflexivity | lia
     | vm_compute; reflexivity | vm_compute; reflexivity].
Defined.

(** ** The retry of the blocking client *)

(** X7.  In the blocking client, after a 401 on a region that is in the
    table, the retried send carries the token of the table, and what it
    raises is not classified, because it is raised inside the handler of
    [HTTPError]: no response, a status from 400 to 599 and a body that
    does not decode leave [request] as the exception of requests itself
    (its [RequestException], [HTTPError] and [JSONDecodeError], all of
    them [RequestException]s), never as an exception of exceptions.py; a
    document is returned. *)
Theorem Api_retried_send_outcomes
    (py_str : pyobj -> string) (E : env) (method url region : string)
    (kwargs : list (string * pyobj)) (authorization : string)
    (cache : gmap string (gmap string pyobj)) (s : st)
    (b : option (gmap string pyobj)) (t : gmap string pyobj) (a : pyobj) :
  resource E (sends (log (net s))) = Response 401 b ->
  cache !! cache_key py_str ApiPy [PStr region] [] = Some t ->
  t !! "access_token" = Some a ->
  Api.dispatch py_str E method url region kwargs authorization (cache, s)
  = (match resource E (S (sends (log (net s)))) with
     | NoResponse => Raise RequestException
     | Response status body =>
         if (400 <=? status) && (status <? 600) then Raise (HTTPError status)
         else match body with
              | Some d => Return d
              | None => Raise JSONDecodeError
              end
     end,
     (cache,
      record [ResourceRequest method url kwargs ("Bearer " +:+ py_str a)]
        (record [AssignToken t]
           (install t (record [ResourceRequest method url kwargs authorization] s)))))
  /\ (forall e,
        fst (Api.dispatch py_str E method url region kwargs authorization (cache, s))
        = Raise e ->
        is_RequestException e = true).
Proof.
  intros H401 Hhit Ha.
  assert (Api.dispatch py_str E method url region kwargs authorization (cache, s)
          = (match resource E (S (sends (log (net s)))) with
             | NoResponse => Raise RequestException
             | Response status body =>
                 if (400 <=? status) && (status <? 600) then Raise (HTTPError status)
                 else match body with
                      | Some d => Return d
                      | None => Raise JSONDecodeError
                      end
             end,
             (cache,
              record [ResourceRequest method url kwargs ("Bearer " +:+ py_str a)]
                (record [AssignToken t]
                   (install t
                      (record [ResourceRequest method url kwargs authorization] s))))))
    as Hrun.
  { rewrite dispatch_run. cbn zeta. rewrite H401.
    change ((400 <=? 401) && (401 <? 600)) with true. change (401 =? 401) with true.
    cbn match.
    rewrite (retry_hit py_str E method url region kwargs cache _ t a) by done.
    rewrite send_run. state. done. }
  split; [exact Hrun|].
  intros e. rewrite Hrun. cbn [fst].
  destruct (resource E (S (sends (log (net s))))) as [|status body].
  - by intros [= <-].
  - destruct ((400 <=? status) && (status <? 600)); [by intros [= <-]|].
    destruct body; [discriminate | by intros [= <-]].
Qed.

Lemma Api_retried_send_outcomes_witness :
  fst (Api.dispatch Scenario.str (Fixtures.unauthorized_once 404 None)
         "GET" "/data/x/1" "us" [] "Bearer T0"
         (fst Scenario.after_first_call, Scenario.signed_in))
  = Raise (HTTPError 404)
  /\ fst (Api.dispatch Scenario.str (Fixtures.unauthorized_once 200 None)
            "GET" "/data/x/1" "us" [] "Bearer T0"
            (fst Scenario.after_first_call, Scenario.signed_in))
     = Raise JSONDecodeError.
Proof.
  split.
  - destruct (Api_retried_send_outcomes Scenario.str (Fixtures.unauthorized_once 404 None)
                "GET" "/data/x/1" "us" [] "Bearer T0"
                (fst Scenario.after_first_call) Scenario.signed_in
                None (Scenario.stamped "T0" 3600 0) (PStr "T0")) as [Hrun _];
      [reflexivity | apply lookup_insert_eq | vm_compute; reflexivity|].
    rewrite Hrun. reflexivity.
  - destruct (Api_retried_send_outcomes Scenario.str (Fixtures.unauthorized_once 200 None)
                "GET" "/data/x/1" "us" [] "Bearer T0"
                (fst Scenario.after_first_call) Scenario.signed_in
                None (Scenario.stamped "T0" 3600 0) (PStr "T0")) as [Hrun _];
      [reflexivity | apply lookup_insert_eq | vm_compute; reflexivity|].
    rewrite Hrun. reflexivity.
Defined.

(** ** A first call that succeeds *)

(** X8.  A first call on a client without a token, when the token request
    is granted and the resource server answers with a document: the
    document is returned after exactly one token request and one send,
    in this order; the send goes to the URL of [_format_url] and carries
    [Bearer] and the access token just granted; the granted token is
    installed (in the cooperative client with [expires_at] set to the
    time read after the answer plus [expires_in]). *)
Theorem first_call_on_a_fresh_client
    (py_str : pyobj -> string) (E : env) (method resource_path region : string)
    (kwargs : list (string * pyobj)) (cache : gmap string (gmap string pyobj))
    (s : st) (status : Z) (d : gmap string pyobj) :
  valid_region region = true ->
  falsy (token (self s)) = true ->
  resource E (sends (log (net s))) = Response status (Some d) ->
  status < 400 ->
  (forall t a,
     cache !! cache_key py_str ApiPy [PStr region] [] = None ->
     fetch_token E (token_requests (log (net s))) = Fetched t ->
     t !! "access_token" = Some a ->
     fst (Api.request py_str E method resource_path region kwargs (cache, s)) = Return d
     /\ log (net (snd (snd
          (Api.request py_str E method resource_path region kwargs (cache, s)))))
        = (log (net s)
           ++ [token_request_of region s; AssignToken t; AssignToken t;
               ResourceRequest method (_format_url resource_path region) kwargs
                 ("Bearer " +:+ py_str a)])%list
     /\ token (self (snd (snd
          (Api.request py_str E method resource_path region kwargs (cache, s))))) = t)
  /\ (forall status0 t a n,
        post_token E (token_requests (log (net s))) = Response status0 (Some t) ->
        status0 < 400 ->
        t !! "expires_in" = Some (PNum n) ->
        t !! "access_token" = Some a ->
        fst (AsyncApi.request py_str E method resource_path region kwargs s) = Return d
        /\ log (net (snd
             (AsyncApi.request py_str E method resource_path region kwargs s)))
           = (log (net s)
              ++ [token_post_of region s; AssignToken t;
                  SetTokenItem "expires_at" (PNum (time E (S (ticks (net s))) + n));
                  ResourceRequest method (_format_url resource_path region) kwargs
                    ("Bearer " +:+ py_str a)])%list
        /\ token (self (snd
             (AsyncApi.request py_str E method resource_path region kwargs s)))
           = <["expires_at" := PNum (time E (S (ticks (net s))) + n)]> t).
Proof.
  intros Hv Hf Hres Hs. split.
  - intros t a Hmiss Hfetch Ha.
    unfold Api.request. rewrite Hv. cbn [negb]. unfold bind.
    rewrite (authenticate_fresh py_str E region cache s t a) by done.
    rewrite dispatch_run. cbn zeta. state. rewrite Hres.
    replace ((400 <=? status) && (status <? 600)) with false by lia.
    state. by rewrite <- !app_assoc.
  - intros status0 t a n Hp Hs0 Hn Ha.
    unfold AsyncApi.request. rewrite Hv. cbn [negb]. unfold bind.
    rewrite (async_authenticate_fresh py_str E region s status0 t n a) by done.
    cbn zeta. rewrite async_dispatch_run. cbn zeta. state. rewrite Hres.
    replace (status =? 401) with false by lia.
    replace (400 <=? status) with false by lia.
    state. by rewrite <- !app_assoc.
Qed.

Lemma first_call_on_a_fresh_client_witness :
  fst (Api.request Scenario.str Scenario.an_hour_later "GET" "/data/x/1" "eu" []
         (∅, Scenario.fresh "id" "secret"))
  = Return ∅
  /\ fst (AsyncApi.request Scenario.str Scenario.an_hour_later "GET" "/data/x/1" "eu" []
            (Scenario.fresh "id" "secret"))
     = Return ∅.
Proof.
  destruct (first_call_on_a_fresh_client Scenario.str Scenario.an_hour_later
              "GET" "/data/x/1" "eu" [] ∅ (Scenario.fresh "id" "secret") 200 ∅
              eq_refl eq_refl eq_refl) as [Hsync Hasync]; [lia|].
  split.
  - apply (Hsync (Scenario.stamped "T0" 3600 0) (PStr "T0"));
      [apply lookup_empty | reflexivity | vm_compute; reflexivity].
  - apply (Hasync 200 (Scenario.granted "T0" 3600) (PStr "T0") 3600);
      [reflexivity | lia | vm_compute; reflexivity | vm_compute; reflexivity].
Defined.

(** ** The key of api.py's [method_cache] *)

Lemma leb_trans (a b c : string) :
  String.leb a b = true -> String.leb b c = true -> String.leb a c = true.
Proof.
  unfold String.leb. intros Hab Hbc.
  destruct (String.compare a b) eqn:Eab; [|clear Hab|discriminate].
  - apply String.compare_eq_iff in Eab as ->. done.
  - destruct (String.compare b c) eqn:Ebc; [|clear Hbc|discriminate].
    + apply String.compare_eq_iff in Ebc as <-. by rewrite Eab.
    + apply OrderedTypeEx.String_as_OT.cmp_lt in Eab, Ebc.
      pose proof (OrderedTypeEx.String_as_OT.lt_trans _ _ _ Eab Ebc) as Hac.
      apply OrderedTypeEx.String_as_OT.cmp_lt in Hac.
      unfold OrderedTypeEx.String_as_OT.cmp in Hac. by rewrite Hac.
Qed.

Lemma insert_item_perm it l : insert_item it l ≡ₚ it :: l.
Proof.
  induction l as [|it' l IH]; [done|]. cbn.
  destruct (String.leb (fst it) (fst it')); [done|].
  rewrite IH. apply Permutation_swap.
Qed.

Lemma sorted_items_perm l : sorted_items l ≡ₚ l.
Proof.
  induction l as [|it l IH]; [done|]. cbn.
  fold (sorted_items l). by rewrite insert_item_perm, IH.
Qed.

Lemma insert_item_sorted it l :
  StronglySorted key_le l -> StronglySorted key_le (insert_item it l).
Proof.
  induction 1 as [|it' l Hl IH Hall]; cbn.
  - repeat constructor.
  - destruct (String.leb (fst it) (fst it')) eqn:Hle.
    + constructor; [by constructor|].
      constructor; [done|].
      eapply Forall_impl; [exact Hall|]. intros x Hx. unfold key_le in *.
      by eapply leb_trans.
    + constructor; [done|].
      rewrite insert_item_perm. constructor; [|done].
      unfold key_le. destruct (String.leb_total (fst it) (fst it')); congruence.
Qed.

Lemma sorted_items_sorted l : StronglySorted key_le (sorted_items l).
Proof.
  induction l as [|it l IH]; cbn; [constructor|]. by apply insert_item_sorted.
Qed.

Lemma sorted_unique (l1 l2 : list (string * pyobj)) :
  StronglySorted key_le l1 -> StronglySorted key_le l2 ->
  l1 ≡ₚ l2 -> NoDup (fst <$> l1) -> l1 = l2.
Proof.
  intros H1. revert l2. induction H1 as [|a l1 Hl1 IH Ha]; intros l2 H2 Hp Hnd.
  - by apply Permutation_nil_l in Hp.
  - destruct H2 as [|b l2 Hl2 Hb]; [by apply Permutation_nil_r in Hp|].
    assert (a = b) as <-.
    { assert (a ∈ b :: l2) as Hin1 by (rewrite <- Hp; left).
      assert (b ∈ a :: l1) as Hin2 by (rewrite Hp; left).
      apply elem_of_cons in Hin1 as [|Hin1]; [done|].
      apply elem_of_cons in Hin2 as [|Hin2]; [done|].
      rewrite Forall_forall in Ha, Hb.
      pose proof (String.leb_antisym _ _ (Ha _ Hin2) (Hb _ Hin1)) as Hk.
      apply NoDup_cons in Hnd as [Hnot _]. destruct Hnot.
      rewrite Hk. by apply list_elem_of_fmap_2. }
    f_equal. apply IH; [done| |].
    + by apply Permutation_cons_inv in Hp.
    + by apply NoDup_cons in Hnd as [_ ?].
Qed.

(** X10.  The key of the decorator of api.py does not depend on the order
    in which the keyword arguments are given: two calls with the same
    positional arguments and the same keyword arguments, in whatever
    order, have the same key, and so share one entry of the table. *)
Theorem api_key_ignores_keyword_order
    (py_str : pyobj -> string) (args : list pyobj)
    (kwargs kwargs' : list (string * pyobj)) :
  NoDup (fst <$> kwargs) ->
  kwargs ≡ₚ kwargs' ->
  cache_key py_str ApiPy args kwargs = cache_key py_str ApiPy args kwargs'.
Proof.
  intros Hnd Hp. unfold cache_key.
  rewrite (sorted_unique (sorted_items kwargs) (sorted_items kwargs')); [done|..].
  - apply sorted_items_sorted.
  - apply sorted_items_sorted.
  - by rewrite !sorted_items_perm.
  - by rewrite sorted_items_perm.
Qed.

Lemma api_key_ignores_keyword_order_witness :
  cache_key Scenario.str ApiPy [PStr "us"] [("locale", PStr "en_US"); ("id", PNum 7)]
  = cache_key Scenario.str ApiPy [PStr "us"] [("id", PNum 7); ("locale", PStr "en_US")].
Proof.
  apply (api_key_ignores_keyword_order Scenario.str [PStr "us"]
           [("locale", PStr "en_US"); ("id", PNum 7)]
           [("id", PNum 7); ("locale", PStr "en_US")]).
  - cbn. apply NoDup_cons. split; [|apply NoDup_singleton].
    intros H. apply elem_of_cons in H as [H|H]; [discriminate H|].
    by apply elem_of_nil in H.
  - apply Permutation_swap.
Defined.

(** ** The key of wow_game_data.py's [method_cache] *)

(** Rearranged keyword arguments are sorted into one list. *)
Lemma sorted_items_perm_eq (kwargs kwargs' : list (string * pyobj)) :
  NoDup (fst <$> kwargs) -> kwargs ≡ₚ kwargs' ->
  sorted_items kwargs = sorted_items kwargs'.
Proof.
  intros Hnd Hp. apply sorted_unique.
  - apply sorted_items_sorted.
  - apply sorted_items_sorted.
  - by rewrite !sorted_items_perm.
  - by rewrite sorted_items_perm.
Qed.

(** C7.  The two decorators on two calls that pass the same positional
    arguments and the same keyword arguments, the second call in another
    order of the keywords ([kwargs'] is a rearrangement of [kwargs] and
    not the same list).  Under the decorator of wow_game_data.py the key
    follows the order of the keywords: the second call does not find the
    result of the first and executes [func] again, so that the operation
    has been executed twice.  Under the decorator of api.py, which sorts
    the keyword arguments, the second call returns the stored result and
    [func] has been executed once. *)
Theorem WowGameData_key_follows_keyword_order
    {St V : Type} (func : list pyobj -> list (string * pyobj) -> M St V)
    (args : list pyobj) (kwargs kwargs' : list (string * pyobj))
    (cache : gmap string V) (n : nat) (s s1 : St) (v : V) :
  NoDup (fst <$> kwargs) ->
  kwargs ≡ₚ kwargs' ->
  kwargs <> kwargs' ->
  func args kwargs s = (Return v, s1) ->
  (cache !! cache_key Scenario.str WowGameDataPy args kwargs = None ->
   cache !! cache_key Scenario.str WowGameDataPy args kwargs' = None ->
   method_cache Scenario.str WowGameDataPy (counted func) args kwargs'
     (snd (method_cache Scenario.str WowGameDataPy (counted func) args kwargs
             (cache, (n, s))))
   = (fst (func args kwargs' s1),
      (match fst (func args kwargs' s1) with
       | Return v' =>
           <[cache_key Scenario.str WowGameDataPy args kwargs' := v']>
             (<[cache_key Scenario.str WowGameDataPy args kwargs := v]> cache)
       | Raise _ => <[cache_key Scenario.str WowGameDataPy args kwargs := v]> cache
       end,
       (S (S n), snd (func args kwargs' s1)))))
  /\ (cache !! cache_key Scenario.str ApiPy args kwargs = None ->
      method_cache Scenario.str ApiPy (counted func) args kwargs'
        (snd (method_cache Scenario.str ApiPy (counted func) args kwargs
                (cache, (n, s))))
      = (Return v, (<[cache_key Scenario.str ApiPy args kwargs := v]> cache, (S n, s1)))).
Proof.
  intros Hnd Hp Hne Hf. split.
  - intros Hmiss Hmiss'.
    rewrite (method_cache_miss_return Scenario.str WowGameDataPy (counted func)
               args kwargs cache (n, s) v (S n, s1))
      by (done || by rewrite counted_run, Hf).
    cbn [snd]. unfold method_cache.
    rewrite lookup_insert_ne by by apply data_key_follows_order.
    rewrite Hmiss', counted_run.
    by destruct (func args kwargs' s1) as [[v'|e] s2].
  - intros Hmiss.
    rewrite (method_cache_miss_return Scenario.str ApiPy (counted func)
               args kwargs cache (n, s) v (S n, s1))
      by (done || by rewrite counted_run, Hf).
    cbn [snd]. apply method_cache_hit.
    unfold cache_key. rewrite <- (sorted_items_perm_eq kwargs kwargs') by done.
    apply lookup_insert_eq.
Qed.

Lemma WowGameData_key_follows_keyword_order_witness :
  fst (snd (snd
    (method_cache Scenario.str WowGameDataPy
       (counted (WowGameDataApi._get_data_func Scenario.str Scenario.an_hour_later))
       [PStr "/data/wow/item/19019"; PStr "us"; PStr "en_US"]
       [("page", PNum 1); ("namespace", PStr "static-us")]
       (snd (method_cache Scenario.str WowGameDataPy
               (counted (WowGameDataApi._get_data_func Scenario.str Scenario.an_hour_later))
               [PStr "/data/wow/item/19019"; PStr "us"; PStr "en_US"]
               [("namespace", PStr "static-us"); ("page", PNum 1)]
               (∅, (0%nat, (∅, Scenario.fresh "id" "secret"))))))))
  = 2%nat
  /\ fst (snd (snd
       (method_cache Scenario.str ApiPy
          (counted (WowGameDataApi._get_data_func Scenario.str Scenario.an_hour_later))
          [PStr "/data/wow/item/19019"; PStr "us"; PStr "en_US"]
          [("page", PNum 1); ("namespace", PStr "static-us")]
          (snd (method_cache Scenario.str ApiPy
                  (counted (WowGameDataApi._get_data_func Scenario.str Scenario.an_hour_later))
                  [PStr "/data/wow/item/19019"; PStr "us"; PStr "en_US"]
                  [("namespace", PStr "static-us"); ("page", PNum 1)]
                  (∅, (0%nat, (∅, Scenario.fresh "id" "secret"))))))))
     = 1%nat.
Proof.
  destruct (WowGameData_key_follows_keyword_order
              (WowGameDataApi._get_data_func Scenario.str Scenario.an_hour_later)
              [PStr "/data/wow/item/19019"; PStr "us"; PStr "en_US"]
              [("namespace", PStr "static-us"); ("page", PNum 1)]
              [("page", PNum 1); ("namespace", PStr "static-us")]
              ∅ 0%nat (∅, Scenario.fresh "id" "secret")
              (snd (WowGameDataApi._get_data_func Scenario.str Scenario.an_hour_later
                      [PStr "/data/wow/item/19019"; PStr "us"; PStr "en_US"]
                      [("namespace", PStr "static-us"); ("page", PNum 1)]
                      (∅, Scenario.fresh "id" "secret")))
              ∅) as [Hdata Hapi].
  - cbn. apply NoDup_cons. split; [|apply NoDup_singleton].
    intros H. apply elem_of_cons in H as [H|H]; [discriminate H|].
    by apply elem_of_nil in H.
  - apply Permutation_swap.
  - discriminate.
  - vm_compute. reflexivity.
  - split.
    + rewrite Hdata by apply lookup_empty. reflexivity.
    + rewrite Hapi by apply lookup_empty. reflexivity.
Defined.

(** ** The query builder *)

Lemma getitem_opt_setitem_eq key v d : getitem_opt key (setitem key v d) = Some v.
Proof.
  induction d as [|it d IH]; cbn.
  - by rewrite String.eqb_refl.
  - destruct (String.eqb (fst it) key) eqn:Hk; cbn.
    + by rewrite String.eqb_refl.
    + by rewrite Hk.
Qed.

Lemma getitem_opt_setitem_ne key v d k :
  k <> key -> getitem_opt k (setitem key v d) = getitem_opt k d.
Proof.
  intros Hne.
  assert (String.eqb key k = false) as Hkey by (apply String.eqb_neq; congruence).
  induction d as [|it d IH]; cbn.
  - by rewrite Hkey.
  - destruct (String.eqb (fst it) key) eqn:Hk; cbn.
    + apply String.eqb_eq in Hk as ->. by rewrite Hkey.
    + by rewrite IH.
Qed.

Lemma setitem_keys key v d :
  fst <$> setitem key v d
  = (if has_key key d then fst <$> d else (fst <$> d) ++ [key])%list.
Proof.
  unfold has_key. induction d as [|it d IH]; cbn; [done|].
  destruct (String.eqb (fst it) key) eqn:Hk; cbn.
  - by apply String.eqb_eq in Hk as <-.
  - rewrite IH. by destruct (getitem_opt key d).
Qed.

Lemma has_key_false key d : has_key key d = false -> key ∉ fst <$> d.
Proof.
  unfold has_key. induction d as [|it d IH]; cbn; [intros _; apply not_elem_of_nil|].
  destruct (String.eqb (fst it) key) eqn:Hk; [done|].
  intros Hd. apply not_elem_of_cons. split; [|by apply IH].
  intros ->. by rewrite String.eqb_refl in Hk.
Qed.

Lemma setitem_sets_field key v d : sets_field key v d (setitem key v d).
Proof.
  split; [apply getitem_opt_setitem_eq|]. split; [|apply setitem_keys].
  intros k Hk. by apply getitem_opt_setitem_ne.
Qed.

Lemma setitem_fresh key v d : has_key key d = false -> setitem key v d = (d ++ [(key, v)])%list.
Proof.
  unfold has_key. induction d as [|it d IH]; cbn; [done|].
  destruct (String.eqb (fst it) key); [done|]. intros Hd. by rewrite IH.
Qed.

(** X11.  Every method of [SearchQuery] that adds to the query sets
    exactly one field of [params]: afterwards that field reads as the
    value given, a second setting of the same field replaces the first,
    every other field reads as before, and the fields keep their order (a
    new field comes last); so the names of the fields stay pairwise
    different. *)
Theorem SearchQuery_sets_one_field
    (py_str : pyobj -> string) (params : list (string * pyobj)) :
  (forall field value,
     sets_field field value params (SearchQuery.add_field field value params))
  /\ (forall field values,
        sets_field field (PStr (String.concat "||" (py_format py_str <$> values)))
          params (SearchQuery.add_or py_str field values params))
  /\ (forall field value,
        sets_field (field +:+ "!") value params (SearchQuery.add_not field value params))
  /\ (forall page, sets_field "_page" page params (SearchQuery.set_page page params))
  /\ (forall page_size,
        sets_field "_pageSize" page_size params
          (SearchQuery.set_page_size page_size params))
  /\ (forall fields,
        sets_field "orderby" (PStr (String.concat "," fields)) params
          (SearchQuery.set_order fields params))
  /\ (forall field value params',
        sets_field field value params params' ->
        NoDup (fst <$> params) -> NoDup (fst <$> params')).
Proof.
  do 6 (split; [intros; apply setitem_sets_field|]).
  intros field value params' (_ & _ & Hkeys) Hnd. rewrite Hkeys.
  destruct (has_key field params) eqn:Hk; [done|].
  apply NoDup_app. split; [done|]. split; [|apply NoDup_singleton].
  intros k Hin Hk'. apply elem_of_cons in Hk' as [->|Hk']; [|by apply elem_of_nil in Hk'].
  by apply has_key_false in Hk.
Qed.

(** X12.  [add_range] drops a bound that is falsy: a minimum or a maximum
    of 0, of the empty string or of an empty collection gives the same
    range as no bound at all. *)
Theorem add_range_drops_falsy_bounds
    (py_str : pyobj -> string) (field : string) (v : pyobj)
    (other : option pyobj) (inclusive : bool) (params : list (string * pyobj)) :
  truthy v = false ->
  SearchQuery.add_range py_str field (Some v) other inclusive params
  = SearchQuery.add_range py_str field None other inclusive params
  /\ SearchQuery.add_range py_str field other (Some v) inclusive params
     = SearchQuery.add_range py_str field other None inclusive params.
Proof.
  intros Hv. unfold SearchQuery.add_range, SearchQuery.or_empty. by rewrite Hv.
Qed.

Lemma add_range_drops_falsy_bounds_witness :
  SearchQuery.add_range Scenario.str "level" (Some (PNum 0)) (Some (PNum 10)) true []
  = SearchQuery.add_range Scenario.str "level" None (Some (PNum 10)) true []
  /\ SearchQuery.add_range Scenario.str "level" (Some (PNum 10)) (Some (PNum 0)) true []
     = SearchQuery.add_range Scenario.str "level" (Some (PNum 10)) None true [].
Proof.
  apply (add_range_drops_falsy_bounds Scenario.str "level" (PNum 0) (Some (PNum 10))
           true []).
  reflexivity.
Defined.

Lemma concat_snoc sep (l : list string) x :
  String.concat sep (l ++ [x])
  = match l with
    | [] => x
    | _ => String.concat sep l +:+ sep +:+ x
    end.
Proof.
  induction l as [|y l IH]; [done|]. cbn [app String.concat].
  destruct l as [|z l]; cbn [app] in *.
  - done.
  - rewrite IH. cbn [String.concat].
    by rewrite !append_assoc.
Qed.

(** X13.  [build] on a query to which a field that was not there has been
    added: the query string is the one before, followed by [&] (unless
    the query was empty) and the pair of the new field; an empty query
    builds the empty string. *)
Theorem build_appends_new_field
    (py_str : pyobj -> string) (quote_plus : string -> string)
    (field : string) (value : pyobj) (params : list (string * pyobj)) :
  has_key field params = false ->
  SearchQuery.build py_str quote_plus SearchQuery.init = ""
  /\ SearchQuery.build py_str quote_plus (SearchQuery.add_field field value params)
     = match params with
       | [] => quote_plus field +:+ "=" +:+ quote_plus (py_format py_str value)
       | _ =>
           SearchQuery.build py_str quote_plus params +:+ "&"
           +:+ (quote_plus field +:+ "=" +:+ quote_plus (py_format py_str value))
       end.
Proof.
  intros Hk. split; [done|].
  unfold SearchQuery.add_field, SearchQuery.build.
  rewrite setitem_fresh by done. rewrite fmap_app. cbn [fmap list_fmap].
  rewrite concat_snoc. by destruct params.
Qed.

Lemma build_appends_new_field_witness :
  SearchQuery.build Scenario.str (fun s => s)
    (SearchQuery.add_field "_page" (PNum 2) [("has_queue", PStr "true")])
  = SearchQuery.build Scenario.str (fun s => s) [("has_queue", PStr "true")] +:+ "&"
    +:+ ("_page" +:+ "=" +:+ py_format Scenario.str (PNum 2)).
Proof.
  apply (build_appends_new_field Scenario.str (fun s => s) "_page" (PNum 2)
           [("has_queue", PStr "true")]).
  reflexivity.
Defined.

Lemma SearchQuery_sets_one_field_witness :
  NoDup (fst <$> SearchQuery.add_field "_page" (PNum 1) [("has_queue", PStr "true")]).
Proof.
  destruct (SearchQuery_sets_one_field Scenario.str [("has_queue", PStr "true")])
    as (Hadd & _ & _ & _ & _ & _ & Hnd).
  apply (Hnd "_page" (PNum 1) _ (Hadd "_page" (PNum 1))).
  apply NoDup_singleton.
Defined.

(** ** The data client *)

(** X14.  [search] writes into the query object of its caller: after the
    call, whatever its outcome, the fields [namespace] and [locale] of
    the query are the ones of this call, whatever the caller had put
    there, and the other fields are as the caller left them. *)
Theorem search_writes_the_query_of_the_caller
    (py_str : pyobj -> string) (quote_plus : string -> string) (E : env)
    (region locale document_type namespace_type : string)
    (query : list (string * pyobj))
    (s : gmap string (gmap string pyobj) * (gmap string (gmap string pyobj) * st)) :
  getitem_opt "namespace"
    (fst (snd (WowGameDataApi.search py_str quote_plus E region locale document_type
                 namespace_type (query, s))))
  = Some (PStr (namespace_type +:+ "-" +:+ region))
  /\ getitem_opt "locale"
       (fst (snd (WowGameDataApi.search py_str quote_plus E region locale document_type
                    namespace_type (query, s))))
     = Some (PStr locale)
  /\ (forall k, k <> "namespace" -> k <> "locale" ->
      getitem_opt k
        (fst (snd (WowGameDataApi.search py_str quote_plus E region locale document_type
                     namespace_type (query, s))))
      = getitem_opt k query).
Proof.
  assert (fst (snd (WowGameDataApi.search py_str quote_plus E region locale document_type
                      namespace_type (query, s)))
          = setitem "locale" (PStr locale)
              (setitem "namespace" (PStr (namespace_type +:+ "-" +:+ region)) query))
    as ->.
  { unfold WowGameDataApi.search, SearchQuery.add_field, lift. cbn zeta.
    by destruct (WowGameDataApi._get_data _ _ _ _ s). }
  split; [|split].
  - rewrite getitem_opt_setitem_ne by done. apply getitem_opt_setitem_eq.
  - apply getitem_opt_setitem_eq.
  - intros k Hn Hl. by rewrite !getitem_opt_setitem_ne.
Qed.

(** X15.  [get_token_price] splits the price of the token index into
    gold, silver and copper such that
    [price = 10000 * gold + 100 * silver + copper] with silver and copper
    from 0 to 99, for every integer price; when the index has no [price],
    it raises [TypeError].  The state is the one [get_token_index] of the
    retail namespace leaves, whatever [is_classic] is. *)
Theorem get_token_price_denominations
    (py_str : pyobj -> string) (E : env) (region locale : string) (is_classic : bool)
    (s s' : gmap string (gmap string pyobj) * (gmap string (gmap string pyobj) * st))
    (token_object : gmap string pyobj) :
  WowGameDataApi.get_token_index py_str E region locale false s
  = (Return token_object, s') ->
  (forall price,
     token_object !! "price" = Some (PNum price) ->
     exists gold silver copper,
       WowGameDataApi.get_token_price py_str E region locale is_classic s
       = (Return {[ "gold" := PNum gold; "silver" := PNum silver;
                    "copper" := PNum copper ]}, s')
       /\ price = 10000 * gold + 100 * silver + copper
       /\ 0 <= silver < 100 /\ 0 <= copper < 100)
  /\ (token_object !! "price" = None ->
      WowGameDataApi.get_token_price py_str E region locale is_classic s
      = (Raise TypeError, s')).
Proof.
  intros Hindex. split.
  - intros price Hp.
    exists (price / 10000), (price mod 10000 / 100), (price mod 100).
    split.
    + unfold WowGameDataApi.get_token_price, bind. by rewrite Hindex, Hp.
    + Z.div_mod_to_equations. lia.
  - intros Hp. unfold WowGameDataApi.get_token_price, bind. by rewrite Hindex, Hp.
Qed.

Lemma get_token_price_denominations_witness :
  exists gold silver copper,
    WowGameDataApi.get_token_price Scenario.str Scenario.unreachable "us" "en_US" true
      Fixtures.index_stored
    = (Return {[ "gold" := PNum gold; "silver" := PNum silver; "copper" := PNum copper ]},
       Fixtures.index_stored)
    /\ 2345678 = 10000 * gold + 100 * silver + copper
    /\ 0 <= silver < 100 /\ 0 <= copper < 100.
Proof.
  destruct (get_token_price_denominations Scenario.str Scenario.unreachable
              "us" "en_US" true Fixtures.index_stored Fixtures.index_stored
              {[ "price" := PNum 2345678 ]}) as [Hprice _].
  - apply method_cache_hit. apply lookup_insert_eq.
  - apply (Hprice 2345678). apply lookup_singleton_eq.
Defined.

Section DataClientRuns.

Context (py_str : pyobj -> string) (E : env).

(** The blocking client on a first call that succeeds. *)
Lemma Api_request_fresh_success method resource_path region kwargs cache s t a status d :
  valid_region region = true ->
  falsy (token (self s)) = true ->
  cache !! cache_key py_str ApiPy [PStr region] [] = None ->
  fetch_token E (token_requests (log (net s))) = Fetched t ->
  t !! "access_token" = Some a ->
  resource E (sends (log (net s))) = Response status (Some d) ->
  ~ 400 <= status < 600 ->
  Api.request py_str E method resource_path region kwargs (cache, s)
  = (Return d,
     (<[cache_key py_str ApiPy [PStr region] [] := t]> cache,
      record [ResourceRequest method (_format_url resource_path region) kwargs
                ("Bearer " +:+ py_str a)]
        (record [AssignToken t] (install t
          (record [AssignToken t] (install t
            (record [token_request_of region s] s))))))).
Proof.
  intros Hv Hf Hmiss Hfetch Ha Hres Hs.
  unfold Api.request. rewrite Hv. cbn [negb]. unfold bind.
  rewrite (authenticate_fresh py_str E region cache s t a) by done.
  rewrite dispatch_run. cbn zeta. state. rewrite Hres.
  by replace ((400 <=? status) && (status <? 600)) with false by lia.
Qed.

(** [_get_data] called like the accessors call it. *)
Lemma _get_data_func_run resource region locale namespace s :
  WowGameDataApi._get_data_func py_str E
    [PStr resource; PStr region; PStr locale] [("namespace", PStr namespace)] s
  = Api.request py_str E "GET" resource region
      [("params", PDict [("locale", PStr locale); ("namespace", PStr namespace)])] s.
Proof. reflexivity. Qed.

End DataClientRuns.

(** X16.  A first call of an accessor of the data client, here
    [get_achievement], on a client without a token: when the token
    request is granted and the resource server answers with a document,
    there is one token request and one [GET] of the achievement's path at
    the URL of the region, with the parameters [locale] and
    [namespace = static-{region}] and the granted token; the document is
    returned and stored.  Every later call with the same arguments returns
    that document and leaves the state, whatever it is, as it is: no
    network operation of any kind. *)
Theorem get_achievement_twice
    (py_str : pyobj -> string) (E : env) (region locale : string)
    (achievement_id : pyobj)
    (data cache : gmap string (gmap string pyobj)) (s : st)
    (t : gmap string pyobj) (a : pyobj) (status : Z) (d : gmap string pyobj) :
  valid_region region = true ->
  falsy (token (self s)) = true ->
  data !! cache_key py_str WowGameDataPy
            [PStr ("/data/wow/achievement/" +:+ py_format py_str achievement_id);
             PStr region; PStr locale]
            [("namespace", PStr ("static-" +:+ region))] = None ->
  cache !! cache_key py_str ApiPy [PStr region] [] = None ->
  fetch_token E (token_requests (log (net s))) = Fetched t ->
  t !! "access_token" = Some a ->
  resource E (sends (log (net s))) = Response status (Some d) ->
  ~ 400 <= status < 600 ->
  fst (WowGameDataApi.get_achievement py_str E region locale achievement_id
         (data, (cache, s)))
  = Return d
  /\ log (net (snd (snd (snd
       (WowGameDataApi.get_achievement py_str E region locale achievement_id
          (data, (cache, s)))))))
     = (log (net s)
        ++ [token_request_of region s; AssignToken t; AssignToken t;
            ResourceRequest "GET"
              (_format_url ("/data/wow/achievement/" +:+ py_format py_str achievement_id)
                 region)
              [("params",
                PDict [("locale", PStr locale);
                       ("namespace", PStr ("static-" +:+ region))])]
              ("Bearer " +:+ py_str a)])%list
  /\ (forall s2,
        WowGameDataApi.get_achievement py_str E region locale achievement_id
          (fst (snd (WowGameDataApi.get_achievement py_str E region locale achievement_id
                       (data, (cache, s)))), s2)
        = (Return d,
           (fst (snd (WowGameDataApi.get_achievement py_str E region locale
                        achievement_id (data, (cache, s)))), s2))).
Proof.
  intros Hv Hf Hdata Hmiss Hfetch Ha Hres Hs.
  unfold WowGameDataApi.get_achievement, WowGameDataApi._get_data.
  erewrite method_cache_miss_return; [|done|].
  2:{ rewrite _get_data_func_run.
      by apply (Api_request_fresh_success py_str E "GET" _ region _ cache s t a status d). }
  cbn [fst snd]. split; [done|]. split.
  - state. by rewrite <- !app_assoc.
  - intros s2. apply method_cache_hit. apply lookup_insert_eq.
Qed.

Lemma get_achievement_twice_witness :
  fst (WowGameDataApi.get_achievement Scenario.str Scenario.an_hour_later
         "eu" "en_GB" (PNum 6) (∅, (∅, Scenario.fresh "id" "secret")))
  = Return ∅
  /\ WowGameDataApi.get_achievement Scenario.str Scenario.an_hour_later
       "eu" "en_GB" (PNum 6)
       (fst (snd (WowGameDataApi.get_achievement Scenario.str Scenario.an_hour_later
                    "eu" "en_GB" (PNum 6) (∅, (∅, Scenario.fresh "id" "secret")))),
        (∅, Scenario.signed_in))
     = (Return ∅,
        (fst (snd (WowGameDataApi.get_achievement Scenario.str Scenario.an_hour_later
                     "eu" "en_GB" (PNum 6) (∅, (∅, Scenario.fresh "id" "secret")))),
         (∅, Scenario.signed_in))).
Proof.
  destruct (get_achievement_twice Scenario.str Scenario.an_hour_later "eu" "en_GB" (PNum 6)
              ∅ ∅ (Scenario.fresh "id" "secret") (Scenario.stamped "T0" 3600 0)
              (PStr "T0") 200 ∅) as (Hfirst & _ & Hlater);
    [reflexivity | reflexivity | apply lookup_empty | apply lookup_empty | reflexivity
     | vm_compute; reflexivity | reflexivity | lia |].
  split; [exact Hfirst | exact (Hlater (∅, Scenario.signed_in))].
Defined.
